(** * Character chat backend: record lifecycle and response shaping

    A shallow embedding of [main.py] and [schemas.py].  Python dicts are
    finite maps from field names to scalar values, handlers are computations
    in a state-and-exception monad over the process environment (document
    store, wall clock, uuid source, hash salt). *)

From Stdlib Require Import ZArith String Ascii List Lia Sorting.Sorted.
From stdpp Require Import base option list gmap strings pretty sorting.

Local Open Scope string_scope.
Local Open Scope list_scope.
Local Open Scope Z_scope.

(** ** Python values *)

(** The scalar values the handlers put into documents: [None], [bool],
    [int], [str] and aware [datetime] (microseconds since the epoch). *)
Inductive pyval : Type :=
  | VNone
  | VBool (b : bool)
  | VInt (z : Z)
  | VStr (s : string)
  | VTime (t : Z).

#[global] Instance pyval_eq_dec : EqDecision pyval.
Proof. solve_decision. Defined.

(** A Python [dict] with string keys. *)
Abbreviation dict := (gmap string pyval).

(** Truth value of an object in a condition ([if x], [x or y]). *)
Definition py_truthy (v : pyval) : bool :=
  match v with
  | VNone => false
  | VBool b => b
  | VInt z => negb (z =? 0)%Z
  | VStr s => negb (String.eqb s "")
  | VTime _ => true
  end.

(** [x or y] *)
Definition py_or (x y : pyval) : pyval := if py_truthy x then x else y.

(** [s[:n]] on a [str]: the first [n] characters, or all of [s] when it is
    shorter. *)
Fixpoint str_prefix (n : nat) (s : string) : string :=
  match n, s with
  | O, _ => EmptyString
  | S _, EmptyString => EmptyString
  | S n', String c s' => String c (str_prefix n' s')
  end.

(** ** Exceptions and results *)

(** The exceptions a handler can leave with.  [HTTPException] is the one
    the handlers raise themselves; the others escape from dict access,
    model construction and the store driver. *)
Inductive exn : Type :=
  | HTTPException (status_code : Z) (detail : string)
  | KeyError (key : string)
  | TypeError
  | AttributeError
  | ValidationError (model : string)
  | DuplicateKeyError.

#[global] Instance exn_eq_dec : EqDecision exn.
Proof. solve_decision. Defined.

(** A value or the exception raised instead of it. *)
Abbreviation result := (sum exn).

Definition rbind {A B} (r : result A) (k : A → result B) : result B :=
  match r with
  | inl e => inl e
  | inr a => k a
  end.

Notation "x <-? r ;; k" := (rbind r (fun x => k))
  (at level 100, r at next level, right associativity).

(** A list comprehension or [for] loop building a list of models: the first
    exception aborts it. *)
Fixpoint traverse {A B} (f : A → result B) (l : list A) : result (list B) :=
  match l with
  | [] => inr []
  | x :: l' => y <-? f x ;; ys <-? traverse f l' ;; inr (y :: ys)
  end.

(** [d[k]] *)
Definition getitem (k : string) (d : dict) : result pyval :=
  match d !! k with
  | Some v => inr v
  | None => inl (KeyError k)
  end.

(** [d.get(k)] and [d.get(k, default)] *)
Definition dict_get (k : string) (d : dict) : pyval := default VNone (d !! k).
Definition dict_get_or (k : string) (dflt : pyval) (d : dict) : pyval :=
  default dflt (d !! k).

(** ** Schemas ([schemas.py]) *)

Module UserProfile.
Record t : Type := mk { username : string; age : option Z; trust_score : Z }.
End UserProfile.

Module Character.
Record t : Type := mk {
  name : string;
  personality : string;
  appearance : option string;
  location : option string;
  creator_username : string;
  nsfw_allowed : bool }.
End Character.

Inductive rating_t : Type := SFW | NSFW.

Module ImageRequest.
Record t : Type := mk {
  character_id : string;
  username : string;
  prompt : string;
  style : option string;
  rating : rating_t }.
End ImageRequest.

Module CharacterOut.
Record t : Type := mk {
  id : string;
  name : string;
  personality : string;
  appearance : option string;
  location : option string;
  creator_username : string;
  nsfw_allowed : bool;
  created_at : Z }.
End CharacterOut.

Inductive role_t : Type := role_user | role_character.

Module MessageOut.
Record t : Type := mk {
  id : string;
  character_id : string;
  username : string;
  text : string;
  role : role_t;
  created_at : Z }.
End MessageOut.

Module ChatIn.
Record t : Type := mk { username : string; text : string }.
End ChatIn.

Module ImageGenResponse.
Record t : Type := mk {
  id : string;
  status : string;
  message : string;
  image_url : option string }.
End ImageGenResponse.

(** Field validators: what constructing a model accepts for a field of the
    given annotation.  A value of another type is a validation error (the
    records these handlers write never need a coercion). *)
Definition as_str (model : string) (v : pyval) : result string :=
  match v with VStr s => inr s | _ => inl (ValidationError model) end.

Definition as_opt_str (model : string) (v : pyval) : result (option string) :=
  match v with
  | VNone => inr None
  | VStr s => inr (Some s)
  | _ => inl (ValidationError model)
  end.

Definition as_bool (model : string) (v : pyval) : result bool :=
  match v with VBool b => inr b | _ => inl (ValidationError model) end.

Definition as_datetime (model : string) (v : pyval) : result Z :=
  match v with VTime t => inr t | _ => inl (ValidationError model) end.

Definition as_role (model : string) (v : pyval) : result role_t :=
  match v with
  | VStr s =>
      if String.eqb s "user" then inr role_user
      else if String.eqb s "character" then inr role_character
      else inl (ValidationError model)
  | _ => inl (ValidationError model)
  end.

(** [Field(..., min_length=lo, max_length=hi)] on a [str]. *)
Definition as_str_len (model : string) (lo hi : nat) (v : pyval) : result string :=
  match v with
  | VStr s =>
      if bool_decide (lo ≤ String.length s ≤ hi)%nat then inr s
      else inl (ValidationError model)
  | _ => inl (ValidationError model)
  end.

(** [Field(..., ge=lo, le=hi)] on an [int]. *)
Definition as_int_range (model : string) (lo hi : Z) (v : pyval) : result Z :=
  match v with
  | VInt z =>
      if bool_decide (lo ≤ z ≤ hi) then inr z else inl (ValidationError model)
  | _ => inl (ValidationError model)
  end.

Definition as_opt_int_range (model : string) (lo hi : Z) (v : pyval)
  : result (option Z) :=
  match v with
  | VNone => inr None
  | _ => z <-? as_int_range model lo hi v ;; inr (Some z)
  end.

(** [UserProfile(username=u, age=a, trust_score=ts)] *)
Definition UserProfile_new (u a ts : pyval) : result UserProfile.t :=
  u' <-? as_str_len "UserProfile" 2 32 u ;;
  a' <-? as_opt_int_range "UserProfile" 0 150 a ;;
  ts' <-? as_int_range "UserProfile" 0 100 ts ;;
  inr (UserProfile.mk u' a' ts').

(** The request-side validity of a [UserProfile] body. *)
Definition UserProfile_valid (p : UserProfile.t) : Prop :=
  (2 ≤ String.length (UserProfile.username p) ≤ 32)%nat ∧
  match UserProfile.age p with Some a => 0 ≤ a ≤ 150 | None => True end ∧
  0 ≤ UserProfile.trust_score p ≤ 100.

Definition opt_int (o : option Z) : pyval :=
  match o with Some z => VInt z | None => VNone end.
Definition opt_str (o : option string) : pyval :=
  match o with Some s => VStr s | None => VNone end.

(** [profile.model_dump()] *)
Definition UserProfile_model_dump (p : UserProfile.t) : dict :=
  <["username" := VStr (UserProfile.username p)]>
  (<["age" := opt_int (UserProfile.age p)]>
  (<["trust_score" := VInt (UserProfile.trust_score p)]> ∅)).

(** [character.model_dump()] *)
Definition Character_model_dump (c : Character.t) : dict :=
  <["name" := VStr (Character.name c)]>
  (<["personality" := VStr (Character.personality c)]>
  (<["appearance" := opt_str (Character.appearance c)]>
  (<["location" := opt_str (Character.location c)]>
  (<["creator_username" := VStr (Character.creator_username c)]>
  (<["nsfw_allowed" := VBool (Character.nsfw_allowed c)]> ∅))))).

(** ** The document store *)

Abbreviation collection := (list dict).

(** Sort direction of [sort(field, 1)] and [sort(field, -1)]. *)
Inductive direction : Type := ASCENDING | DESCENDING.

(** Modelled from the spec: the document store adapter behind the handle
    [db] of [database.py] — named collections with [find_one(filter)],
    [find(filter).sort(field, dir)], [insert_one(doc)] and
    [update_one(filter, update)].  A collection keeps its documents in
    insertion order, as the dicts handed to it; a filter [{k: v}] selects the
    documents whose field [k] equals [v]; ["_id"] is the primary key, so
    inserting a second document with a key already present is refused. *)
Definition matches (k : string) (v : pyval) (d : dict) : bool :=
  bool_decide (d !! k = Some v).

Definition coll_find_one (k : string) (v : pyval) (c : collection) : option dict :=
  List.find (matches k v) c.

Definition coll_insert_one (d : dict) (c : collection) : result collection :=
  match d !! "_id" with
  | Some key =>
      if existsb (matches "_id" key) c then inl DuplicateKeyError
      else inr (c ++ [d])
  | None => inl (KeyError "_id")
  end.

(** [update_one({k: v}, {"$set": fields})]: the first matching document
    takes the given fields, keeping its others. *)
Fixpoint coll_update_one (k : string) (v : pyval) (fields : dict) (c : collection)
  : collection :=
  match c with
  | [] => []
  | d :: c' =>
      if matches k v d then (fields ∪ d) :: c'
      else d :: coll_update_one k v fields c'
  end.

(** The order of the store on field values: by type first (null and
    missing, numbers, strings, booleans, dates), then by value. *)
Definition bson_rank (o : option pyval) : Z :=
  match o with
  | None | Some VNone => 0
  | Some (VInt _) => 1
  | Some (VStr _) => 2
  | Some (VBool _) => 3
  | Some (VTime _) => 4
  end.

Definition bson_leb (a b : option pyval) : bool :=
  match a, b with
  | Some (VInt x), Some (VInt y) => (x <=? y)%Z
  | Some (VStr x), Some (VStr y) => String.leb x y
  | Some (VBool x), Some (VBool y) => implb x y
  | Some (VTime x), Some (VTime y) => (x <=? y)%Z
  | _, _ => (bson_rank a <=? bson_rank b)%Z
  end.

Definition field_le (f : string) (dir : direction) (x y : dict) : Prop :=
  match dir with
  | ASCENDING => bson_leb (x !! f) (y !! f)
  | DESCENDING => bson_leb (y !! f) (x !! f)
  end.

#[global] Instance field_le_dec f dir x y : Decision (field_le f dir x y).
Proof. unfold field_le; destruct dir; apply _. Defined.

(** [find(filter).sort(field, dir)]; [None] is the empty filter of
    [find()]. *)
Definition coll_find_sorted (flt : option (string * pyval)) (f : string)
    (dir : direction) (c : collection) : list dict :=
  merge_sort (field_le f dir)
    (match flt with
     | Some (k, v) => List.filter (matches k v) c
     | None => c
     end).

(** The database: [db[name]] is a collection for every name, empty until
    something is inserted. *)
Abbreviation database := (gmap string collection).

Definition db_coll (name : string) (d : database) : collection :=
  default [] (d !! name).

(** ** The process environment and the handler monad *)

(** What a handler can read or change: the store handle ([None] when no
    store is configured), the wall clock and the uuid generator (each a
    sequence of future results and the number already consumed), and the
    salt of the interpreter's string hash. *)
Record World : Type := mkWorld {
  db : option database;
  now_at : nat → Z;
  clock_reads : nat;
  uuid_at : nat → string;
  uuid_draws : nat;
  hash_salt : Z }.

Definition set_db (d : option database) (w : World) : World :=
  mkWorld d (now_at w) (clock_reads w) (uuid_at w) (uuid_draws w) (hash_salt w).

(** A handler body: it ends with a value or an exception, and in both
    cases leaves a world behind (nothing is rolled back on an exception). *)
Definition M (A : Type) : Type := World → result A * World.

Definition ret {A} (a : A) : M A := fun w => (inr a, w).
Definition raise {A} (e : exn) : M A := fun w => (inl e, w).

Definition bind {A B} (m : M A) (k : A → M B) : M B :=
  fun w =>
    match m w with
    | (inl e, w') => (inl e, w')
    | (inr a, w') => k a w'
    end.

Notation "x <- m ;; k" := (bind m (fun x => k))
  (at level 100, m at next level, right associativity).
Notation "m ;;; k" := (bind m (fun _ => k))
  (at level 100, right associativity).

Definition lift {A} (r : result A) : M A := fun w => (r, w).

(** [datetime.now(timezone.utc)] *)
Definition utcnow : M Z :=
  fun w =>
    (inr (now_at w (clock_reads w)),
     mkWorld (db w) (now_at w) (S (clock_reads w)) (uuid_at w) (uuid_draws w)
             (hash_salt w)).

(** [str(uuid4())] *)
Definition uuid4 : M string :=
  fun w =>
    (inr (uuid_at w (uuid_draws w)),
     mkWorld (db w) (now_at w) (clock_reads w) (uuid_at w) (S (uuid_draws w))
             (hash_salt w)).

(** [db is None] *)
Definition db_is_None : M bool := fun w => (inr (bool_decide (db w = None)), w).

(** Reading from and writing to [db[name]]; subscripting a [None] handle is
    a [TypeError]. *)
Definition read_coll {A} (name : string) (f : collection → A) : M A :=
  fun w =>
    match db w with
    | Some d => (inr (f (db_coll name d)), w)
    | None => (inl TypeError, w)
    end.

Definition write_coll (name : string) (f : collection → result collection) : M unit :=
  fun w =>
    match db w with
    | Some d =>
        match f (db_coll name d) with
        | inr c => (inr tt, set_db (Some (<[name := c]> d)) w)
        | inl e => (inl e, w)
        end
    | None => (inl TypeError, w)
    end.

Definition find_one (name k : string) (v : pyval) : M (option dict) :=
  read_coll name (coll_find_one k v).
Definition find_sorted (name : string) (flt : option (string * pyval))
    (f : string) (dir : direction) : M (list dict) :=
  read_coll name (coll_find_sorted flt f dir).
Definition insert_one (name : string) (d : dict) : M unit :=
  write_coll name (coll_insert_one d).
Definition update_one (name k : string) (v : pyval) (fields : dict) : M unit :=
  write_coll name (fun c => inr (coll_update_one k v fields c)).

(** The salt [hash] was keyed with when the interpreter started. *)
Definition salt : M Z := fun w => (inr (hash_salt w), w).

(** The result of [find_one] as tested by [if existing] and [if not char]:
    [None] and the empty dict are false, any other dict is true. *)
Definition if_doc (o : option dict) : option dict :=
  match o with
  | Some d => if bool_decide (d = ∅) then None else Some d
  | None => None
  end.

(** ** Response models built from documents *)

Definition CharacterOut_new
    (id name personality appearance location creator_username nsfw_allowed
     created_at : pyval) : result CharacterOut.t :=
  id' <-? as_str "CharacterOut" id ;;
  name' <-? as_str "CharacterOut" name ;;
  personality' <-? as_str "CharacterOut" personality ;;
  appearance' <-? as_opt_str "CharacterOut" appearance ;;
  location' <-? as_opt_str "CharacterOut" location ;;
  creator' <-? as_str "CharacterOut" creator_username ;;
  nsfw' <-? as_bool "CharacterOut" nsfw_allowed ;;
  created' <-? as_datetime "CharacterOut" created_at ;;
  inr (CharacterOut.mk id' name' personality' appearance' location' creator'
         nsfw' created').

(** The [CharacterOut(...)] call of [create_character] and
    [list_characters]: the subscripts are evaluated first, in order, then
    the model is validated. *)
Definition CharacterOut_of_doc (d : dict) : result CharacterOut.t :=
  id <-? getitem "id" d ;;
  name <-? getitem "name" d ;;
  personality <-? getitem "personality" d ;;
  creator_username <-? getitem "creator_username" d ;;
  created_at <-? getitem "created_at" d ;;
  CharacterOut_new id name personality (dict_get "appearance" d)
    (dict_get "location" d) creator_username
    (dict_get_or "nsfw_allowed" (VBool false) d) created_at.

Definition MessageOut_new (id character_id username text role created_at : pyval)
  : result MessageOut.t :=
  id' <-? as_str "MessageOut" id ;;
  character_id' <-? as_str "MessageOut" character_id ;;
  username' <-? as_str "MessageOut" username ;;
  text' <-? as_str "MessageOut" text ;;
  role' <-? as_role "MessageOut" role ;;
  created' <-? as_datetime "MessageOut" created_at ;;
  inr (MessageOut.mk id' character_id' username' text' role' created').

(** The [MessageOut(...)] call of [post_message] and [get_messages]. *)
Definition MessageOut_of_doc (d : dict) : result MessageOut.t :=
  id <-? getitem "id" d ;;
  character_id <-? getitem "character_id" d ;;
  username <-? getitem "username" d ;;
  text <-? getitem "text" d ;;
  role <-? getitem "role" d ;;
  created_at <-? getitem "created_at" d ;;
  MessageOut_new id character_id username text role created_at.

(** ** Well-formed stored records

    The shape of the records the handlers write, as an executable view
    onto the response model that shows them. *)

Definition role_of_str (s : string) : option role_t :=
  if String.eqb s "user" then Some role_user
  else if String.eqb s "character" then Some role_character
  else None.

(** A stored message, read field by field. *)
Definition message_view (m : dict) : option MessageOut.t :=
  match m !! "_id", m !! "character_id", m !! "username", m !! "text",
        m !! "role", m !! "created_at" with
  | Some (VStr id), Some (VStr cid), Some (VStr u), Some (VStr t),
    Some (VStr r), Some (VTime ts) =>
      role ← role_of_str r; Some (MessageOut.mk id cid u t role ts)
  | _, _, _, _, _, _ => None
  end.

Definition opt_str_of (o : option pyval) : option (option string) :=
  match o with
  | None | Some VNone => Some None
  | Some (VStr s) => Some (Some s)
  | Some _ => None
  end.

Definition nsfw_of (o : option pyval) : option bool :=
  match o with
  | None => Some false
  | Some (VBool b) => Some b
  | Some _ => None
  end.

(** A stored character, read field by field. *)
Definition character_view (c : dict) : option CharacterOut.t :=
  match c !! "_id", c !! "name", c !! "personality", c !! "creator_username",
        c !! "created_at" with
  | Some (VStr id), Some (VStr n), Some (VStr p), Some (VStr cu), Some (VTime ts) =>
      a ← opt_str_of (c !! "appearance");
      l ← opt_str_of (c !! "location");
      b ← nsfw_of (c !! "nsfw_allowed");
      Some (CharacterOut.mk id n p a l cu b ts)
  | _, _, _, _, _ => None
  end.

(** A user record is keyed by its username. *)
Definition user_keyed (u : dict) : Prop :=
  ∃ n, u !! "_id" = Some (VStr n) ∧ u !! "username" = Some (VStr n).

(** The user collection as [upsert_user] keeps it: every record keyed by
    its username, no key twice. *)
Definition users_wf (us : collection) : Prop :=
  Forall user_keyed us ∧ NoDup ((.!! "_id") <$> us).

(** No document of the collection has the primary key [id]. *)
Definition fresh_id (id : string) (c : collection) : Prop :=
  Forall (fun d => d !! "_id" ≠ Some (VStr id)) c.

(** The record [create_character] hands to the store: the dumped model
    with both timestamps and the generated key. *)
Definition character_record (c : Character.t) (id : string) (now : Z) : dict :=
  <["_id" := VStr id]>
  (<["updated_at" := VTime now]>
  (<["created_at" := VTime now]> (Character_model_dump c))).

(** Every stored message names, as a string, the key of a stored
    character. *)
Definition messages_refer (d : database) : Prop :=
  Forall (fun m => ∃ cid, m !! "character_id" = Some (VStr cid) ∧
                          is_Some (coll_find_one "_id" (VStr cid)
                                     (db_coll "character" d)))
    (db_coll "message" d).

(** ** Sample environment *)

Definition sample_datetime_str (t : Z) : string := "T+" +:+ pretty t.
Definition sample_str_hash (k : Z) (s : string) : Z :=
  k - 31 * Z.of_nat (String.length s).

Definition sample_character : dict :=
  <["_id" := VStr "c-1"]>
  (<["name" := VStr "Aria"]>
  (<["personality" := VStr "kind and brave"]>
  (<["appearance" := VStr "red hair"]>
  (<["location" := VNone]>
  (<["creator_username" := VStr "bob"]>
  (<["nsfw_allowed" := VBool false]>
  (<["created_at" := VTime 90]>
  (<["updated_at" := VTime 90]> ∅)))))))).

Definition sample_user : dict :=
  <["_id" := VStr "bob"]>
  (<["username" := VStr "bob"]>
  (<["age" := VInt 30]>
  (<["trust_score" := VInt 100]>
  (<["created_at" := VTime 80]>
  (<["updated_at" := VTime 80]> ∅))))).

Definition sample_message : dict :=
  <["_id" := VStr "m-1"]>
  (<["character_id" := VStr "c-1"]>
  (<["username" := VStr "bob"]>
  (<["text" := VStr "hi"]>
  (<["role" := VStr "user"]>
  (<["created_at" := VTime 95]>
  (<["updated_at" := VTime 95]> ∅)))))).

Definition sample_db : database :=
  <["character" := [sample_character]]>
  (<["userprofile" := [sample_user]]>
  (<["message" := [sample_message]]> ∅)).

Definition sample_world : World :=
  mkWorld (Some sample_db) (fun n => 100 + Z.of_nat n) 0
          (fun n => "uuid-" +:+ pretty n) 0 7.

Fixpoint str_repeat (n : nat) (c : ascii) : string :=
  match n with
  | O => EmptyString
  | S n' => String c (str_repeat n' c)
  end.

Definition sample_long_text : string := str_repeat 400 "a"%char.

Definition sample_nsfw_request : ImageRequest.t :=
  ImageRequest.mk "c-1" "bob" "a castle at dusk" None NSFW.
Definition sample_sfw_request : ImageRequest.t :=
  ImageRequest.mk "c-1" "bob" "a castle at dusk" None SFW.


Definition sample_offline_world : World :=
  mkWorld None (fun n => 100 + Z.of_nat n) 0 (fun n => "uuid-" +:+ pretty n) 0 7.

(** A character record that lost its name. *)
Definition sample_nameless_character : dict :=
  <["_id" := VStr "c-2"]>
  (<["personality" := VStr "shy"]>
  (<["creator_username" := VStr "bob"]>
  (<["created_at" := VTime 91]> ∅))).

Definition sample_broken_world : World :=
  mkWorld (Some (<["character" := [sample_character; sample_nameless_character]]> ∅))
          (fun n => 100 + Z.of_nat n) 0 (fun n => "uuid-" +:+ pretty n) 0 7.

(** An environment whose identifier source keeps returning the key of the
    sample character. *)
Definition sample_stuck_world : World :=
  mkWorld (Some sample_db) (fun n => 100 + Z.of_nat n) 0 (fun _ => "c-1") 0 7.

Definition sample_new_user : UserProfile.t := UserProfile.mk "alice" (Some 20) 0.
Definition sample_known_user : UserProfile.t := UserProfile.mk "bob" (Some 31) 10.

Definition sample_new_character : Character.t :=
  Character.mk "Brin" "dry and witty" None (Some "the docks") "bob" false.

(** Closes an equation between closed terms by evaluating both sides; a
    right-hand side still to be determined is set to the value of the
    left-hand side. *)
Ltac vm_refl :=
  lazymatch goal with
  | |- @eq ?T ?x ?y =>
      tryif has_evar y
      then (let v := eval vm_compute in x in exact (@eq_refl T v <: @eq T x v))
      else exact (@eq_refl T y <: @eq T x y)
  end.

Section Backend.

(** [str] of an aware datetime; its exact rendering plays no role. *)
Variable datetime_str : Z → string.

(** The interpreter's hash of a [str]; it is keyed by a salt drawn once
    when the process starts. *)
Variable str_hash : Z → string → Z.

(** [str(v)], also what an f-string field [{v}] renders. *)
Definition py_str (v : pyval) : string :=
  match v with
  | VNone => "None"
  | VBool true => "True"
  | VBool false => "False"
  | VInt z => pretty z
  | VStr s => s
  | VTime t => datetime_str t
  end.

(** ** Identifier normalization *)

(** *** On dict objects

    Dicts are mutable objects; [objs] maps a reference to the current
    contents of the dict it denotes.  Each primitive takes the object
    store and returns the new one, [None] standing for a dangling
    reference or a [KeyError]. *)

Abbreviation objs := (gmap nat dict).

(** [doc.copy()]: a new dict object with the same items. *)
Definition dict_copy (r : nat) (h : objs) : option (nat * objs) :=
  m ← h !! r;
  let r' := fresh (dom h) in
  Some (r', <[r' := m]> h).

(** [k in d] *)
Definition dict_contains (k : string) (r : nat) (h : objs) : option bool :=
  m ← h !! r;
  Some (bool_decide (is_Some (m !! k))).

(** [d.pop(k)] *)
Definition dict_pop (k : string) (r : nat) (h : objs) : option (pyval * objs) :=
  m ← h !! r;
  v ← m !! k;
  Some (v, <[r := delete k m]> h).

(** [d[k] = v] *)
Definition dict_setitem (k : string) (v : pyval) (r : nat) (h : objs) : option objs :=
  m ← h !! r;
  Some (<[r := <[k := v]> m]> h).

(** [doc_to_str_id] as it acts on the object store: the argument and the
    result are references. *)
Definition doc_to_str_id_obj (doc : nat) (h : objs) : option (nat * objs) :=
  '(d, h1) ← dict_copy doc h;
  has_id ← dict_contains "_id" d h1;
  if has_id : bool then
    '(v, h2) ← dict_pop "_id" d h1;
    h3 ← dict_setitem "id" (VStr (py_str v)) d h2;
    Some (d, h3)
  else Some (d, h1).

(** *** On dict contents

    The dict [doc_to_str_id] returns, as a function of the contents of
    its argument.  The handlers below only use the returned dict. *)
Definition doc_to_str_id (doc : dict) : dict :=
  match doc !! "_id" with
  | Some v => <["id" := VStr (py_str v)]> (delete "_id" doc)
  | None => doc
  end.

(** ** Users *)

Definition upsert_user (profile : UserProfile.t) : M UserProfile.t :=
  none <- db_is_None ;;
  if none : bool then raise (HTTPException 500 "Database not available") else
  existing <- find_one "userprofile" "username"
                (VStr (UserProfile.username profile)) ;;
  let payload := UserProfile_model_dump profile in
  t <- utcnow ;;
  let payload := <["updated_at" := VTime t]> payload in
  doc <- match if_doc existing with
         | Some existing =>
             key <- lift (getitem "_id" existing) ;;
             update_one "userprofile" "_id" key payload ;;;
             key <- lift (getitem "_id" existing) ;;
             find_one "userprofile" "_id" key
         | None =>
             t' <- utcnow ;;
             let payload := <["created_at" := VTime t']> payload in
             let payload := <["_id" := VStr (UserProfile.username profile)]> payload in
             insert_one "userprofile" payload ;;;
             ret (Some payload)
         end ;;
  match doc with
  | Some doc =>
      lift (UserProfile_new (dict_get "username" doc) (dict_get "age" doc)
              (dict_get "trust_score" doc))
  | None => raise AttributeError
  end.

Definition get_user (username : string) : M UserProfile.t :=
  none <- db_is_None ;;
  if none : bool then raise (HTTPException 500 "Database not available") else
  doc <- find_one "userprofile" "username" (VStr username) ;;
  match if_doc doc with
  | None => raise (HTTPException 404 "User not found")
  | Some doc =>
      lift (UserProfile_new (dict_get "username" doc) (dict_get "age" doc)
              (dict_get "trust_score" doc))
  end.

(** ** Characters *)

Definition create_character (character : Character.t) : M CharacterOut.t :=
  none <- db_is_None ;;
  if none : bool then raise (HTTPException 500 "Database not available") else
  let data := Character_model_dump character in
  now <- utcnow ;;
  let data := <["created_at" := VTime now]> data in
  let data := <["updated_at" := VTime now]> data in
  id <- uuid4 ;;
  let data := <["_id" := VStr id]> data in
  insert_one "character" data ;;;
  let out := doc_to_str_id data in
  lift (CharacterOut_of_doc out).

Definition list_characters : M (list CharacterOut.t) :=
  none <- db_is_None ;;
  if none : bool then raise (HTTPException 500 "Database not available") else
  docs <- find_sorted "character" None "created_at" DESCENDING ;;
  lift (traverse (fun doc => CharacterOut_of_doc (doc_to_str_id doc)) docs).

(** ** Chat messages *)

Definition generate_character_reply (character : dict) (user_text : string) : string :=
  let persona := dict_get_or "personality" (VStr "kind and helpful") character in
  let name := dict_get_or "name" (VStr "Your character") character in
  let prompt_safe := str_prefix 400 user_text in
  py_str name +:+ ": As a " +:+ py_str persona
    +:+ " character, I hear you say: '" +:+ prompt_safe +:+ "'. "
    +:+ "Here's my friendly response: I'm excited to chat and co-create images. "
    +:+ "Share more about style, mood, and setting!".

Definition message_doc (id character_id : string) (username text : pyval)
    (role : string) (now : Z) : dict :=
  <["_id" := VStr id]>
  (<["character_id" := VStr character_id]>
  (<["username" := username]>
  (<["text" := text]>
  (<["role" := VStr role]>
  (<["created_at" := VTime now]>
  (<["updated_at" := VTime now]> ∅)))))).

Definition post_message (character_id : string) (payload : ChatIn.t)
  : M (list MessageOut.t) :=
  none <- db_is_None ;;
  if none : bool then raise (HTTPException 500 "Database not available") else
  char <- find_one "character" "_id" (VStr character_id) ;;
  match if_doc char with
  | None => raise (HTTPException 404 "Character not found")
  | Some char =>
      now <- utcnow ;;
      id <- uuid4 ;;
      let user_msg :=
        message_doc id character_id (VStr (ChatIn.username payload))
          (VStr (ChatIn.text payload)) "user" now in
      insert_one "message" user_msg ;;;
      let reply_text := generate_character_reply char (ChatIn.text payload) in
      id <- uuid4 ;;
      let char_msg :=
        message_doc id character_id (dict_get_or "name" (VStr "character") char)
          (VStr reply_text) "character" now in
      insert_one "message" char_msg ;;;
      msgs <- find_sorted "message" (Some ("character_id", VStr character_id))
                "created_at" ASCENDING ;;
      lift (traverse (fun m => MessageOut_of_doc (doc_to_str_id m)) msgs)
  end.

Definition get_messages (character_id : string) : M (list MessageOut.t) :=
  none <- db_is_None ;;
  if none : bool then raise (HTTPException 500 "Database not available") else
  msgs <- find_sorted "message" (Some ("character_id", VStr character_id))
            "created_at" ASCENDING ;;
  lift (traverse (fun m => MessageOut_of_doc (doc_to_str_id m)) msgs).

(** ** Image generation *)

Definition blocked_message : string :=
  "NSFW image generation is gated and disabled in this demo. "
  +:+ "Earn trust and ensure adult age in a production-ready system.".

(** The composite description of a character and a prompt. *)
Definition image_desc (char : dict) (prompt : string) : string :=
  py_str (dict_get "name" char) +:+ " | "
    +:+ py_str (dict_get "personality" char) +:+ " | "
    +:+ py_str (py_or (dict_get "appearance" char) (VStr "")) +:+ " | "
    +:+ py_str (py_or (dict_get "location" char) (VStr "")) +:+ " | "
    +:+ prompt.

Definition placeholder_url (seed : Z) : string :=
  "https://picsum.photos/seed/" +:+ pretty seed +:+ "/768/512".

Definition generate_image (req : ImageRequest.t) : M ImageGenResponse.t :=
  none <- db_is_None ;;
  if none : bool then raise (HTTPException 500 "Database not available") else
  char <- find_one "character" "_id" (VStr (ImageRequest.character_id req)) ;;
  match if_doc char with
  | None => raise (HTTPException 404 "Character not found")
  | Some char =>
      user <- find_one "userprofile" "username"
                (VStr (ImageRequest.username req)) ;;
      match if_doc user with
      | None => raise (HTTPException 404 "User not found")
      | Some user =>
          match ImageRequest.rating req with
          | NSFW =>
              id <- uuid4 ;;
              ret (ImageGenResponse.mk id "blocked" blocked_message None)
          | SFW =>
              let desc := image_desc char (ImageRequest.prompt req) in
              k <- salt ;;
              let seed := Z.abs (str_hash k desc) `mod` 1000 in
              id <- uuid4 ;;
              ret (ImageGenResponse.mk id "completed"
                     "SFW image created (placeholder)"
                     (Some (placeholder_url seed)))
          end
      end
  end.

(** * Properties *)

(** ** Identifier normalization *)

Lemma doc_to_str_id_no_private (m : dict) : doc_to_str_id m !! "_id" = None.
Proof.
  unfold doc_to_str_id. destruct (m !! "_id") eqn:E; [|done].
  rewrite lookup_insert_ne by done. apply lookup_delete_eq.
Qed.

Lemma doc_to_str_id_public (m : dict) (v : pyval) :
  m !! "_id" = Some v → doc_to_str_id m !! "id" = Some (VStr (py_str v)).
Proof. intros E. unfold doc_to_str_id. rewrite E. apply lookup_insert_eq. Qed.

Lemma doc_to_str_id_other (m : dict) (k : string) :
  k ≠ "_id" → k ≠ "id" → doc_to_str_id m !! k = m !! k.
Proof.
  intros H1 H2. unfold doc_to_str_id. destruct (m !! "_id"); [|done].
  rewrite lookup_insert_ne by done. by rewrite lookup_delete_ne.
Qed.

(** What the object-level function leaves in the store: the old objects
    as they were and one new object holding the normalized items. *)
Lemma doc_to_str_id_obj_run (h : objs) (doc : nat) (m : dict) :
  h !! doc = Some m →
  doc_to_str_id_obj doc h
  = Some (fresh (dom h), <[fresh (dom h) := doc_to_str_id m]> h).
Proof.
  intros Hm. unfold doc_to_str_id_obj, dict_copy. rewrite Hm. simpl.
  unfold dict_contains. rewrite lookup_insert_eq. simpl.
  unfold doc_to_str_id. destruct (m !! "_id") as [v|] eqn:E.
  - rewrite bool_decide_eq_true_2 by eauto.
    unfold dict_pop. rewrite lookup_insert_eq. simpl. rewrite E. simpl.
    unfold dict_setitem. rewrite lookup_insert_eq. simpl.
    by rewrite !insert_insert_eq.
  - rewrite bool_decide_eq_false_2; [done|]. by intros [? ?].
Qed.

(** C6: [doc_to_str_id] returns a new dict in which ["_id"] is gone and
    ["id"] holds [str] of its value, every other field being as in the
    argument; the dict passed in (and every other existing dict) is left
    as it was; an argument without ["_id"] comes back with the same
    items. *)
Theorem doc_to_str_id_copy (h : objs) (doc : nat) (m : dict) :
  h !! doc = Some m →
  ∃ (d : nat) (h' : objs) (m' : dict),
    doc_to_str_id_obj doc h = Some (d, h') ∧
    h !! d = None ∧
    (∀ r, r ≠ d → h' !! r = h !! r) ∧
    h' !! doc = Some m ∧
    h' !! d = Some m' ∧
    m' = doc_to_str_id m ∧
    m' !! "_id" = None ∧
    (∀ v, m !! "_id" = Some v →
          m' !! "id" = Some (VStr (py_str v)) ∧
          ∀ k, k ≠ "_id" → k ≠ "id" → m' !! k = m !! k) ∧
    (m !! "_id" = None → m' = m).
Proof.
  intros Hm.
  assert (Hfresh : h !! fresh (dom h) = None).
  { apply not_elem_of_dom, is_fresh. }
  exists (fresh (dom h)), (<[fresh (dom h) := doc_to_str_id m]> h), (doc_to_str_id m).
  split; [by apply doc_to_str_id_obj_run|].
  split; [done|].
  split; [intros r Hr; by rewrite lookup_insert_ne|].
  split.
  { rewrite lookup_insert_ne; [done|]. intros Heq. rewrite Heq in Hfresh. congruence. }
  split; [apply lookup_insert_eq|].
  split; [done|].
  split; [apply doc_to_str_id_no_private|].
  split.
  - intros v Hv. split; [by apply doc_to_str_id_public|].
    intros k ? ?. by apply doc_to_str_id_other.
  - intros Hn. unfold doc_to_str_id. by rewrite Hn.
Qed.

(** ** Reply derivation *)

(** C10: the reply is determined by the character's name, its
    personality and the first 400 characters of the user's text. *)
Theorem generate_character_reply_prefix (c1 c2 : dict) (t1 t2 : string) :
  c1 !! "name" = c2 !! "name" →
  c1 !! "personality" = c2 !! "personality" →
  str_prefix 400 t1 = str_prefix 400 t2 →
  generate_character_reply c1 t1 = generate_character_reply c2 t2.
Proof.
  intros Hn Hp Ht. unfold generate_character_reply, dict_get_or.
  by rewrite Hn, Hp, Ht.
Qed.

(** ** The store primitives *)

Lemma coll_find_one_Some (k : string) (v : pyval) (c : collection) (d : dict) :
  coll_find_one k v c = Some d → d ∈ c ∧ d !! k = Some v.
Proof.
  unfold coll_find_one. intros H. apply find_some in H as [Hin Hm].
  split; [by apply list_elem_of_In|].
  unfold matches in Hm. by apply bool_decide_eq_true_1 in Hm.
Qed.

Lemma coll_find_one_None (k : string) (v : pyval) (c : collection) :
  Forall (fun d => d !! k ≠ Some v) c → coll_find_one k v c = None.
Proof.
  unfold coll_find_one. induction 1 as [|d c Hd _ IH]; [done|]. simpl.
  unfold matches at 1. by rewrite bool_decide_eq_false_2.
Qed.

Lemma if_doc_found (k : string) (v : pyval) (c : collection) (d : dict) :
  coll_find_one k v c = Some d → if_doc (Some d) = Some d.
Proof.
  intros [_ H]%coll_find_one_Some. unfold if_doc.
  rewrite bool_decide_eq_false_2; [done|]. intros ->. by rewrite lookup_empty in H.
Qed.

Lemma run_db_is_None (w : World) (d : database) :
  db w = Some d → db_is_None w = (inr false, w).
Proof. intros H. unfold db_is_None. by rewrite H. Qed.

Lemma run_read_coll {A} (name : string) (f : collection → A) (w : World)
    (d : database) :
  db w = Some d → read_coll name f w = (inr (f (db_coll name d)), w).
Proof. intros H. unfold read_coll. by rewrite H. Qed.

Lemma bson_leb_total (a b : option pyval) : bson_leb a b ∨ bson_leb b a.
Proof.
  destruct a as [[| [] | x | x | x]|], b as [[| [] | y | y | y]|]; simpl;
    try (by left); try (by right).
  - destruct (Z.leb_spec x y); [by left|].
    right. apply Is_true_true, Z.leb_le. lia.
  - destruct (String.leb_total x y) as [H|H]; [left|right]; by apply Is_true_true.
  - destruct (Z.leb_spec x y); [by left|].
    right. apply Is_true_true, Z.leb_le. lia.
Qed.

#[local] Instance field_le_total (f : string) (dir : direction) :
  Total (field_le f dir).
Proof. intros x y. unfold field_le. destruct dir; apply bson_leb_total. Qed.

Lemma coll_find_sorted_Sorted flt f dir c :
  Sorted (field_le f dir) (coll_find_sorted flt f dir c).
Proof. unfold coll_find_sorted. apply (Sorted_merge_sort _). Qed.

Lemma coll_find_sorted_filter k v f dir c :
  coll_find_sorted (Some (k, v)) f dir c ≡ₚ List.filter (matches k v) c.
Proof. unfold coll_find_sorted. apply merge_sort_Permutation. Qed.

Lemma coll_find_sorted_all f dir c : coll_find_sorted None f dir c ≡ₚ c.
Proof. unfold coll_find_sorted. apply merge_sort_Permutation. Qed.

(** ** Views of stored records *)

Lemma traverse_view {A B} (f : A → result B) (g : A → option B) (l : list A) :
  (∀ x y, g x = Some y → f x = inr y) →
  Forall (fun x => is_Some (g x)) l →
  ∃ out, traverse f l = inr out ∧ g <$> l = Some <$> out.
Proof.
  intros Hfg. induction 1 as [|x l [y Hy] _ [out [IH1 IH2]]].
  - by exists [].
  - exists (y :: out). simpl. rewrite (Hfg _ _ Hy). simpl. rewrite IH1. simpl.
    split; [done|]. f_equal; [exact Hy|exact IH2].
Qed.

Lemma message_view_fields (m : dict) (mo : MessageOut.t) :
  message_view m = Some mo →
  m !! "_id" = Some (VStr (MessageOut.id mo)) ∧
  m !! "character_id" = Some (VStr (MessageOut.character_id mo)) ∧
  m !! "username" = Some (VStr (MessageOut.username mo)) ∧
  m !! "text" = Some (VStr (MessageOut.text mo)) ∧
  (∃ r, m !! "role" = Some (VStr r) ∧ role_of_str r = Some (MessageOut.role mo)) ∧
  m !! "created_at" = Some (VTime (MessageOut.created_at mo)).
Proof.
  unfold message_view. intros H.
  destruct (m !! "_id") as [[]|]; try done.
  destruct (m !! "character_id") as [[]|]; try done.
  destruct (m !! "username") as [[]|]; try done.
  destruct (m !! "text") as [[]|]; try done.
  destruct (m !! "role") as [[| | |r|]|]; try done.
  destruct (m !! "created_at") as [[]|]; try done.
  destruct (role_of_str r) eqn:Hr; simplify_eq/=. eauto 10.
Qed.

Lemma MessageOut_of_view (m : dict) (mo : MessageOut.t) :
  message_view m = Some mo → MessageOut_of_doc (doc_to_str_id m) = inr mo.
Proof.
  intros (Hid & Hc & Hu & Ht & (r & Hr & Hrole) & Hts)%message_view_fields.
  unfold MessageOut_of_doc, getitem.
  rewrite (doc_to_str_id_public _ _ Hid), !doc_to_str_id_other by done.
  rewrite Hc, Hu, Ht, Hr, Hts. simpl.
  unfold role_of_str in Hrole. unfold MessageOut_new, as_role. simpl.
  destruct mo as [i c u t ro ts]; simpl in *.
  destruct (String.eqb r "user"); [by simplify_eq|].
  destruct (String.eqb r "character"); by simplify_eq.
Qed.

Lemma message_views_sorted (docs : list dict) (out : list MessageOut.t) :
  Sorted (field_le "created_at" ASCENDING) docs →
  message_view <$> docs = Some <$> out →
  StronglySorted (fun a b => MessageOut.created_at a ≤ MessageOut.created_at b) out.
Proof.
  intros Hs Hv. apply Sorted_StronglySorted.
  { intros a b c ? ?. lia. }
  revert out Hv. induction Hs as [|m docs _ IH Hhd]; intros [|mo out] Hv;
    simplify_eq/=; [constructor|].
  constructor; [by apply IH|].
  destruct Hhd as [|m' docs' Hle]; destruct out as [|mo' out']; simplify_eq/=;
    constructor.
  unfold field_le in Hle.
  match goal with
  | H1 : message_view m = Some mo, H2 : message_view m' = Some mo' |- _ =>
      apply message_view_fields in H1 as (_ & _ & _ & _ & _ & E1);
      apply message_view_fields in H2 as (_ & _ & _ & _ & _ & E2)
  end.
  rewrite E1, E2 in Hle. simpl in Hle. by apply Is_true_true, Z.leb_le in Hle.
Qed.

Lemma coll_insert_one_fresh (id : string) (doc : dict) (c : collection) :
  doc !! "_id" = Some (VStr id) → fresh_id id c →
  coll_insert_one doc c = inr (c ++ [doc]).
Proof.
  intros Hid Hf. unfold coll_insert_one. rewrite Hid.
  replace (existsb (matches "_id" (VStr id)) c) with false; [done|].
  symmetry. induction Hf as [|x c Hx _ IH]; [done|]. simpl. rewrite IH.
  unfold matches. by rewrite bool_decide_eq_false_2.
Qed.

Lemma fresh_id_snoc (id id' : string) (doc : dict) (c : collection) :
  fresh_id id c → doc !! "_id" = Some (VStr id') → id' ≠ id →
  fresh_id id (c ++ [doc]).
Proof.
  intros Hf Hd Hne. apply Forall_app. split; [done|].
  constructor; [|constructor]. rewrite Hd. congruence.
Qed.

Lemma db_coll_insert (name : string) (c : collection) (d : database) :
  db_coll name (<[name := c]> d) = c.
Proof. unfold db_coll. by rewrite lookup_insert_eq. Qed.

Lemma db_coll_insert_ne (name name' : string) (c : collection) (d : database) :
  name ≠ name' → db_coll name' (<[name := c]> d) = db_coll name' d.
Proof. intros. unfold db_coll. by rewrite lookup_insert_ne. Qed.

Lemma message_doc_id id cid u t r now :
  message_doc id cid u t r now !! "_id" = Some (VStr id).
Proof. unfold message_doc. by rewrite lookup_insert_eq. Qed.

Lemma matches_message_doc id cid u t r now :
  matches "character_id" (VStr cid) (message_doc id cid u t r now) = true.
Proof.
  unfold matches, message_doc. apply bool_decide_eq_true_2.
  rewrite lookup_insert_ne by done. by rewrite lookup_insert_eq.
Qed.

(** One chat turn for an existing character, with fresh identifiers:
    the two records appended, the environment left behind and the
    expression the response is computed from. *)
Lemma post_message_run (w : World) (d : database) (character_id : string)
    (payload : ChatIn.t) (char : dict) :
  let msgs := db_coll "message" d in
  let now := now_at w (clock_reads w) in
  let id1 := uuid_at w (uuid_draws w) in
  let id2 := uuid_at w (S (uuid_draws w)) in
  let user_msg :=
    message_doc id1 character_id (VStr (ChatIn.username payload))
      (VStr (ChatIn.text payload)) "user" now in
  let char_msg :=
    message_doc id2 character_id (dict_get_or "name" (VStr "character") char)
      (VStr (generate_character_reply char (ChatIn.text payload)))
      "character" now in
  db w = Some d →
  coll_find_one "_id" (VStr character_id) (db_coll "character" d) = Some char →
  fresh_id id1 msgs → fresh_id id2 msgs → id1 ≠ id2 →
  post_message character_id payload w
  = (traverse (fun m => MessageOut_of_doc (doc_to_str_id m))
       (coll_find_sorted (Some ("character_id", VStr character_id))
          "created_at" ASCENDING (msgs ++ [user_msg; char_msg])),
     mkWorld (Some (<["message" := msgs ++ [user_msg; char_msg]]> d))
       (now_at w) (S (clock_reads w)) (uuid_at w) (S (S (uuid_draws w)))
       (hash_salt w)).
Proof.
  intros msgs now id1 id2 user_msg char_msg Hdb Hc Hf1 Hf2 Hne.
  unfold post_message, bind.
  rewrite (run_db_is_None _ _ Hdb). unfold find_one.
  rewrite (run_read_coll _ _ _ _ Hdb), Hc, (if_doc_found _ _ _ _ Hc).
  destruct w as [dbw nw cr uu ud hs]. simpl in *. subst dbw.
  unfold insert_one, write_coll. simpl.
  fold msgs. fold now. fold id1. fold user_msg.
  rewrite (coll_insert_one_fresh id1) by (done || apply message_doc_id).
  simpl. rewrite db_coll_insert. fold id2. fold char_msg.
  rewrite (coll_insert_one_fresh id2);
    [|apply message_doc_id
     |by apply (fresh_id_snoc _ id1); [|apply message_doc_id|]].
  simpl. unfold find_sorted, read_coll, lift. simpl.
  rewrite insert_insert_eq, db_coll_insert, <- app_assoc. done.
Qed.

(** ** Image generation *)

(** C1: an NSFW request for an existing character and an existing user
    is answered with status "blocked", the fixed message and no URL,
    whatever the stored user record (its trust score included) is. *)
Theorem generate_image_nsfw_blocked (w : World) (d : database)
    (req : ImageRequest.t) (char user : dict) :
  db w = Some d →
  ImageRequest.rating req = NSFW →
  coll_find_one "_id" (VStr (ImageRequest.character_id req))
    (db_coll "character" d) = Some char →
  coll_find_one "username" (VStr (ImageRequest.username req))
    (db_coll "userprofile" d) = Some user →
  ∃ w', generate_image req w
        = (inr (ImageGenResponse.mk (uuid_at w (uuid_draws w)) "blocked"
                  blocked_message None), w')
        ∧ db w' = db w.
Proof.
  intros Hdb Hr Hc Hu. eexists. unfold generate_image, bind.
  rewrite (run_db_is_None _ _ Hdb). unfold find_one.
  rewrite (run_read_coll _ _ _ _ Hdb), Hc, (if_doc_found _ _ _ _ Hc).
  rewrite (run_read_coll _ _ _ _ Hdb), Hu, (if_doc_found _ _ _ _ Hu).
  rewrite Hr. unfold uuid4, ret. simpl. done.
Qed.


(** ** Chat messages *)

(** C3: posting to a character id that no character record carries
    fails with 404 "Character not found" and leaves the whole
    environment, the message collection included, as it was. *)
Theorem post_message_unknown_character (w : World) (d : database)
    (character_id : string) (payload : ChatIn.t) :
  db w = Some d →
  fresh_id character_id (db_coll "character" d) →
  post_message character_id payload w
  = (inl (HTTPException 404 "Character not found"), w).
Proof.
  intros Hdb Hf. unfold post_message, bind.
  rewrite (run_db_is_None _ _ Hdb). unfold find_one.
  rewrite (run_read_coll _ _ _ _ Hdb), (coll_find_one_None _ _ _ Hf). done.
Qed.

Lemma message_doc_field id cid u t r now :
  message_doc id cid u t r now !! "character_id" = Some (VStr cid) ∧
  message_doc id cid u t r now !! "username" = Some u ∧
  message_doc id cid u t r now !! "text" = Some t ∧
  message_doc id cid u t r now !! "role" = Some (VStr r) ∧
  message_doc id cid u t r now !! "created_at" = Some (VTime now) ∧
  message_doc id cid u t r now !! "updated_at" = Some (VTime now).
Proof. unfold message_doc. repeat split; by simplify_map_eq. Qed.

Lemma message_view_user id cid u t now :
  message_view (message_doc id cid (VStr u) (VStr t) "user" now)
  = Some (MessageOut.mk id cid u t role_user now).
Proof.
  destruct (message_doc_field id cid (VStr u) (VStr t) "user" now)
    as (Hc & Hu & Ht & Hr & Hts & _).
  unfold message_view. by rewrite message_doc_id, Hc, Hu, Ht, Hr, Hts.
Qed.

Lemma message_view_character id cid u t now :
  message_view (message_doc id cid (VStr u) (VStr t) "character" now)
  = Some (MessageOut.mk id cid u t role_character now).
Proof.
  destruct (message_doc_field id cid (VStr u) (VStr t) "character" now)
    as (Hc & Hu & Ht & Hr & Hts & _).
  unfold message_view. by rewrite message_doc_id, Hc, Hu, Ht, Hr, Hts.
Qed.

(** C2: a chat post for an existing character appends exactly two
    records to the message collection and touches no other collection:
    first the user's message with the given username and text, then the
    reply with role "character", the same timestamp, the character's
    name as username, and a text made of the character's name, its
    personality and the first 400 characters of the input text. *)
Theorem post_message_appends_two (w : World) (d : database)
    (character_id : string) (payload : ChatIn.t) (char : dict) (nm : string) :
  db w = Some d →
  coll_find_one "_id" (VStr character_id) (db_coll "character" d) = Some char →
  char !! "name" = Some (VStr nm) →
  fresh_id (uuid_at w (uuid_draws w)) (db_coll "message" d) →
  fresh_id (uuid_at w (S (uuid_draws w))) (db_coll "message" d) →
  uuid_at w (uuid_draws w) ≠ uuid_at w (S (uuid_draws w)) →
  ∃ (r : result (list MessageOut.t)) (w' : World) (d' : database)
    (user_msg char_msg : dict) (reply : string),
    post_message character_id payload w = (r, w') ∧
    db w' = Some d' ∧
    db_coll "message" d' = db_coll "message" d ++ [user_msg; char_msg] ∧
    (∀ name, name ≠ "message" → db_coll name d' = db_coll name d) ∧
    user_msg !! "role" = Some (VStr "user") ∧
    user_msg !! "character_id" = Some (VStr character_id) ∧
    user_msg !! "username" = Some (VStr (ChatIn.username payload)) ∧
    user_msg !! "text" = Some (VStr (ChatIn.text payload)) ∧
    user_msg !! "created_at" = Some (VTime (now_at w (clock_reads w))) ∧
    char_msg !! "role" = Some (VStr "character") ∧
    char_msg !! "character_id" = Some (VStr character_id) ∧
    char_msg !! "username" = Some (VStr nm) ∧
    char_msg !! "text" = Some (VStr reply) ∧
    char_msg !! "created_at" = user_msg !! "created_at" ∧
    user_msg !! "_id" ≠ char_msg !! "_id" ∧
    reply = nm +:+ ": As a "
               +:+ py_str (dict_get_or "personality" (VStr "kind and helpful") char)
               +:+ " character, I hear you say: '"
               +:+ str_prefix 400 (ChatIn.text payload)
               +:+ "'. Here's my friendly response: I'm excited to chat and co-create images. Share more about style, mood, and setting!".
Proof.
  intros Hdb Hc Hn Hf1 Hf2 Hne.
  pose proof (post_message_run w d character_id payload char Hdb Hc Hf1 Hf2 Hne)
    as Hrun. cbv zeta in Hrun.
  do 6 eexists. split; [exact Hrun|]. simpl.
  split; [reflexivity|].
  split; [apply db_coll_insert|].
  split; [intros name Hname; by apply db_coll_insert_ne|].
  match goal with
  | |- context [message_doc ?i ?c ?u ?t "user" ?n] =>
      destruct (message_doc_field i c u t "user" n) as (Hc1 & Hu1 & Ht1 & Hr1 & Hts1 & _)
  end.
  match goal with
  | |- context [message_doc ?i ?c ?u ?t "character" ?n] =>
      destruct (message_doc_field i c u t "character" n)
        as (Hc2 & Hu2 & Ht2 & Hr2 & Hts2 & _)
  end.
  rewrite Hc1, Hu1, Ht1, Hr1, Hts1, Hc2, Hu2, Ht2, Hr2, Hts2, !message_doc_id.
  unfold dict_get_or at 1. rewrite Hn. simpl.
  repeat (split; [reflexivity|]).
  split; [congruence|].
  unfold generate_character_reply, dict_get_or. rewrite Hn. reflexivity.
Qed.

(** C8: a successful chat post returns every stored message of the
    character, the earlier ones followed in the store by the two just
    written, each shown through [MessageOut] and in ascending order of
    [created_at]. *)
Theorem post_message_full_history (w : World) (d : database)
    (character_id : string) (payload : ChatIn.t) (char : dict) (nm : string) :
  db w = Some d →
  coll_find_one "_id" (VStr character_id) (db_coll "character" d) = Some char →
  char !! "name" = Some (VStr nm) →
  fresh_id (uuid_at w (uuid_draws w)) (db_coll "message" d) →
  fresh_id (uuid_at w (S (uuid_draws w))) (db_coll "message" d) →
  uuid_at w (uuid_draws w) ≠ uuid_at w (S (uuid_draws w)) →
  Forall (fun m => is_Some (message_view m))
    (List.filter (matches "character_id" (VStr character_id))
       (db_coll "message" d)) →
  ∃ (docs : list dict) (out : list MessageOut.t) (w' : World)
    (user_msg char_msg : dict),
    post_message character_id payload w = (inr out, w') ∧
    (∃ d', db w' = Some d' ∧
           db_coll "message" d' = db_coll "message" d ++ [user_msg; char_msg]) ∧
    docs ≡ₚ List.filter (matches "character_id" (VStr character_id))
              (db_coll "message" d) ++ [user_msg; char_msg] ∧
    message_view <$> docs = Some <$> out ∧
    StronglySorted
      (fun a b => MessageOut.created_at a ≤ MessageOut.created_at b) out ∧
    length out
    = S (S (length (List.filter (matches "character_id" (VStr character_id))
                      (db_coll "message" d)))).
Proof.
  intros Hdb Hc Hn Hf1 Hf2 Hne Hwf.
  pose proof (post_message_run w d character_id payload char Hdb Hc Hf1 Hf2 Hne)
    as Hrun. cbv zeta in Hrun.
  assert (Hname : dict_get_or "name" (VStr "character") char = VStr nm)
    by (unfold dict_get_or; by rewrite Hn).
  rewrite !Hname in Hrun.
  set (user_msg := message_doc (uuid_at w (uuid_draws w)) character_id
                     (VStr (ChatIn.username payload)) (VStr (ChatIn.text payload))
                     "user" (now_at w (clock_reads w))) in *.
  set (char_msg := message_doc (uuid_at w (S (uuid_draws w))) character_id
                     (VStr nm)
                     (VStr (generate_character_reply char (ChatIn.text payload)))
                     "character" (now_at w (clock_reads w))) in *.
  set (stored := List.filter (matches "character_id" (VStr character_id))
                   (db_coll "message" d)) in *.
  set (docs := coll_find_sorted (Some ("character_id", VStr character_id))
                 "created_at" ASCENDING
                 (db_coll "message" d ++ [user_msg; char_msg])) in *.
  assert (Hperm : docs ≡ₚ stored ++ [user_msg; char_msg]).
  { unfold docs. rewrite coll_find_sorted_filter, List.filter_app. simpl.
    unfold user_msg, char_msg. by rewrite !matches_message_doc. }
  assert (Hwf' : Forall (fun m => is_Some (message_view m)) docs).
  { rewrite Hperm. apply Forall_app. split; [done|].
    constructor; [unfold user_msg; rewrite message_view_user; eauto|].
    constructor; [unfold char_msg; rewrite message_view_character; eauto|].
    constructor. }
  destruct (traverse_view (fun m => MessageOut_of_doc (doc_to_str_id m))
              message_view docs MessageOut_of_view Hwf') as (out & Hout & Hv).
  rewrite Hout in Hrun.
  exists docs, out. do 3 eexists. split; [exact Hrun|]. simpl.
  split; [eexists; split; [reflexivity|apply db_coll_insert]|].
  split; [done|]. split; [done|].
  split; [by eapply message_views_sorted; [apply coll_find_sorted_Sorted|]|].
  assert (Hlen : length (message_view <$> docs) = length (Some <$> out))
    by by rewrite Hv.
  rewrite !length_fmap, Hperm, length_app in Hlen. simpl in Hlen. lia.
Qed.

(** C9: [get_messages] does not look at the character collection; it
    returns the stored messages of the given character id, each shown
    through [MessageOut], in ascending order of [created_at], and the
    empty list when there are none. *)
Theorem get_messages_history (w : World) (d : database) (character_id : string) :
  db w = Some d →
  Forall (fun m => is_Some (message_view m))
    (List.filter (matches "character_id" (VStr character_id))
       (db_coll "message" d)) →
  ∃ (docs : list dict) (out : list MessageOut.t),
    get_messages character_id w = (inr out, w) ∧
    docs ≡ₚ List.filter (matches "character_id" (VStr character_id))
              (db_coll "message" d) ∧
    message_view <$> docs = Some <$> out ∧
    StronglySorted
      (fun a b => MessageOut.created_at a ≤ MessageOut.created_at b) out ∧
    (List.filter (matches "character_id" (VStr character_id))
       (db_coll "message" d) = [] → out = []).
Proof.
  intros Hdb Hwf.
  set (docs := coll_find_sorted (Some ("character_id", VStr character_id))
                 "created_at" ASCENDING (db_coll "message" d)).
  assert (Hperm : docs ≡ₚ List.filter (matches "character_id" (VStr character_id))
                           (db_coll "message" d))
    by apply coll_find_sorted_filter.
  rewrite <- Hperm in Hwf.
  destruct (traverse_view (fun m => MessageOut_of_doc (doc_to_str_id m))
              message_view docs MessageOut_of_view Hwf) as (out & Hout & Hv).
  exists docs, out. split.
  { unfold get_messages, bind. rewrite (run_db_is_None _ _ Hdb).
    unfold find_sorted. rewrite (run_read_coll _ _ _ _ Hdb).
    fold docs. unfold lift. by rewrite Hout. }
  split; [done|]. split; [done|].
  split; [by eapply message_views_sorted; [apply coll_find_sorted_Sorted|]|].
  intros Hnil. rewrite Hnil in Hperm. apply Permutation_nil_r in Hperm.
  rewrite Hperm in Hv. by destruct out.
Qed.

(** ** Characters *)

Lemma opt_str_of_field (o : option pyval) (a : option string) :
  opt_str_of o = Some a → as_opt_str "CharacterOut" (default VNone o) = inr a.
Proof. destruct o as [[]|]; simpl; intros; by simplify_eq. Qed.

Lemma nsfw_of_field (o : option pyval) (b : bool) :
  nsfw_of o = Some b → as_bool "CharacterOut" (default (VBool false) o) = inr b.
Proof. destruct o as [[]|]; simpl; intros; by simplify_eq. Qed.

Lemma character_view_fields (c : dict) (co : CharacterOut.t) :
  character_view c = Some co →
  c !! "_id" = Some (VStr (CharacterOut.id co)) ∧
  c !! "name" = Some (VStr (CharacterOut.name co)) ∧
  c !! "personality" = Some (VStr (CharacterOut.personality co)) ∧
  c !! "creator_username" = Some (VStr (CharacterOut.creator_username co)) ∧
  c !! "created_at" = Some (VTime (CharacterOut.created_at co)) ∧
  opt_str_of (c !! "appearance") = Some (CharacterOut.appearance co) ∧
  opt_str_of (c !! "location") = Some (CharacterOut.location co) ∧
  nsfw_of (c !! "nsfw_allowed") = Some (CharacterOut.nsfw_allowed co).
Proof.
  unfold character_view. intros H.
  destruct (c !! "_id") as [[]|]; try done.
  destruct (c !! "name") as [[]|]; try done.
  destruct (c !! "personality") as [[]|]; try done.
  destruct (c !! "creator_username") as [[]|]; try done.
  destruct (c !! "created_at") as [[]|]; try done.
  destruct (opt_str_of (c !! "appearance")); [|done].
  destruct (opt_str_of (c !! "location")); [|done].
  destruct (nsfw_of (c !! "nsfw_allowed")); [|done].
  by simplify_eq/=.
Qed.

Lemma CharacterOut_of_view (c : dict) (co : CharacterOut.t) :
  character_view c = Some co → CharacterOut_of_doc (doc_to_str_id c) = inr co.
Proof.
  intros (Hid & Hn & Hp & Hcu & Hts & Ha & Hl & Hb)%character_view_fields.
  unfold CharacterOut_of_doc, getitem, dict_get, dict_get_or.
  rewrite (doc_to_str_id_public _ _ Hid), !doc_to_str_id_other by done.
  rewrite Hn, Hp, Hcu, Hts. simpl. unfold CharacterOut_new. simpl.
  rewrite (opt_str_of_field _ _ Ha), (opt_str_of_field _ _ Hl),
    (nsfw_of_field _ _ Hb).
  simpl. by destruct co.
Qed.

Lemma character_views_sorted (docs : list dict) (out : list CharacterOut.t) :
  Sorted (field_le "created_at" DESCENDING) docs →
  character_view <$> docs = Some <$> out →
  StronglySorted
    (fun a b => CharacterOut.created_at b ≤ CharacterOut.created_at a) out.
Proof.
  intros Hs Hv. apply Sorted_StronglySorted.
  { intros a b c ? ?. lia. }
  revert out Hv. induction Hs as [|m docs _ IH Hhd]; intros [|mo out] Hv;
    simplify_eq/=; [constructor|].
  constructor; [by apply IH|].
  destruct Hhd as [|m' docs' Hle]; destruct out as [|mo' out']; simplify_eq/=;
    constructor.
  unfold field_le in Hle.
  match goal with
  | H1 : character_view m = Some mo, H2 : character_view m' = Some mo' |- _ =>
      apply character_view_fields in H1 as (_ & _ & _ & _ & E1 & _);
      apply character_view_fields in H2 as (_ & _ & _ & _ & E2 & _)
  end.
  rewrite E1, E2 in Hle. simpl in Hle. by apply Is_true_true, Z.leb_le in Hle.
Qed.

Lemma character_record_fields (c : Character.t) (id : string) (now : Z) :
  character_record c id now !! "_id" = Some (VStr id) ∧
  character_record c id now !! "created_at" = Some (VTime now) ∧
  character_record c id now !! "updated_at" = Some (VTime now) ∧
  character_view (character_record c id now)
  = Some (CharacterOut.mk id (Character.name c) (Character.personality c)
            (Character.appearance c) (Character.location c)
            (Character.creator_username c) (Character.nsfw_allowed c) now).
Proof.
  unfold character_view, character_record, Character_model_dump.
  repeat split; simplify_map_eq; try done.
  by destruct (Character.appearance c), (Character.location c).
Qed.

(** One creation with a fresh identifier: the response, and the
    environment left behind. *)
Lemma create_character_run (w : World) (d : database) (c : Character.t) :
  let id := uuid_at w (uuid_draws w) in
  let now := now_at w (clock_reads w) in
  db w = Some d →
  fresh_id id (db_coll "character" d) →
  create_character c w
  = (inr (CharacterOut.mk id (Character.name c) (Character.personality c)
            (Character.appearance c) (Character.location c)
            (Character.creator_username c) (Character.nsfw_allowed c) now),
     mkWorld (Some (<["character" :=
                       db_coll "character" d ++ [character_record c id now]]> d))
       (now_at w) (S (clock_reads w)) (uuid_at w) (S (uuid_draws w))
       (hash_salt w)).
Proof.
  intros id now Hdb Hf. unfold create_character, bind.
  rewrite (run_db_is_None _ _ Hdb).
  destruct w as [dbw nw cr uu ud hs]. simpl in *. subst dbw.
  unfold insert_one, write_coll. simpl.
  fold id. fold now. fold (character_record c id now).
  destruct (character_record_fields c id now) as (Hid & _ & _ & Hv).
  rewrite (coll_insert_one_fresh id) by done. simpl.
  unfold lift. by rewrite (CharacterOut_of_view _ _ Hv).
Qed.

(** Two creations in a row when the identifier source yields two fresh,
    different identifiers: both return, and the store and the listing are
    as described. *)
Lemma create_character_pair_fresh (w : World) (d : database) (c : Character.t) :
  db w = Some d →
  fresh_id (uuid_at w (uuid_draws w)) (db_coll "character" d) →
  fresh_id (uuid_at w (S (uuid_draws w))) (db_coll "character" d) →
  uuid_at w (uuid_draws w) ≠ uuid_at w (S (uuid_draws w)) →
  Forall (fun x => is_Some (character_view x)) (db_coll "character" d) →
  ∃ (o1 o2 : CharacterOut.t) (w1 w2 : World) (d2 : database) (r1 r2 : dict)
    (docs : list dict) (out : list CharacterOut.t),
    create_character c w = (inr o1, w1) ∧
    create_character c w1 = (inr o2, w2) ∧
    CharacterOut.id o1 ≠ CharacterOut.id o2 ∧
    db w2 = Some d2 ∧
    db_coll "character" d2 = db_coll "character" d ++ [r1; r2] ∧
    character_view r1 = Some o1 ∧
    character_view r2 = Some o2 ∧
    r1 !! "_id" ≠ r2 !! "_id" ∧
    r1 !! "created_at" = Some (VTime (CharacterOut.created_at o1)) ∧
    r1 !! "updated_at" = r1 !! "created_at" ∧
    r2 !! "created_at" = Some (VTime (CharacterOut.created_at o2)) ∧
    r2 !! "updated_at" = r2 !! "created_at" ∧
    list_characters w2 = (inr out, w2) ∧
    docs ≡ₚ db_coll "character" d ++ [r1; r2] ∧
    character_view <$> docs = Some <$> out ∧
    StronglySorted
      (fun a b => CharacterOut.created_at b ≤ CharacterOut.created_at a) out.
Proof.
  intros Hdb Hf1 Hf2 Hne Hwf.
  set (id1 := uuid_at w (uuid_draws w)) in *.
  set (id2 := uuid_at w (S (uuid_draws w))) in *.
  set (t1 := now_at w (clock_reads w)).
  set (t2 := now_at w (S (clock_reads w))).
  set (chars := db_coll "character" d) in *.
  set (r1 := character_record c id1 t1).
  set (r2 := character_record c id2 t2).
  destruct (character_record_fields c id1 t1) as (Hid1 & Hc1 & Hu1 & Hv1).
  destruct (character_record_fields c id2 t2) as (Hid2 & Hc2 & Hu2 & Hv2).
  pose proof (create_character_run w d c Hdb Hf1) as Hrun1. cbv zeta in Hrun1.
  fold id1 t1 chars r1 in Hrun1.
  set (w1 := mkWorld (Some (<["character" := chars ++ [r1]]> d)) (now_at w)
               (S (clock_reads w)) (uuid_at w) (S (uuid_draws w)) (hash_salt w))
    in *.
  assert (Hf2' : fresh_id (uuid_at w1 (uuid_draws w1))
                   (db_coll "character" (<["character" := chars ++ [r1]]> d))).
  { rewrite db_coll_insert. simpl. by apply (fresh_id_snoc _ id1). }
  pose proof (create_character_run w1 _ c eq_refl Hf2') as Hrun2.
  cbv zeta in Hrun2. simpl in Hrun2.
  rewrite db_coll_insert, insert_insert_eq, <- app_assoc in Hrun2. simpl in Hrun2.
  fold id2 t2 r2 in Hrun2.
  set (d2 := <["character" := chars ++ [r1; r2]]> d) in *.
  set (w2 := mkWorld (Some d2) (now_at w) (S (S (clock_reads w))) (uuid_at w)
               (S (S (uuid_draws w))) (hash_salt w)) in *.
  set (docs := coll_find_sorted None "created_at" DESCENDING (chars ++ [r1; r2])).
  assert (Hperm : docs ≡ₚ chars ++ [r1; r2]) by apply coll_find_sorted_all.
  assert (Hwf' : Forall (fun x => is_Some (character_view x)) docs).
  { rewrite Hperm. apply Forall_app. split; [done|].
    repeat constructor; eauto. }
  destruct (traverse_view (fun x => CharacterOut_of_doc (doc_to_str_id x))
              character_view docs CharacterOut_of_view Hwf') as (out & Hout & Hv).
  eexists _, _, w1, w2, d2, r1, r2, docs, out.
  split; [exact Hrun1|]. split; [exact Hrun2|]. simpl.
  split; [done|]. split; [done|].
  split; [apply db_coll_insert|].
  split; [done|]. split; [done|].
  split; [unfold r1, r2; rewrite Hid1, Hid2; congruence|].
  split; [done|]. split; [unfold r1; by rewrite Hu1, Hc1|].
  split; [done|]. split; [unfold r2; by rewrite Hu2, Hc2|].
  split.
  { unfold list_characters, bind. rewrite (run_db_is_None w2 d2 eq_refl).
    unfold find_sorted. rewrite (run_read_coll _ _ w2 d2 eq_refl).
    unfold d2 at 1. rewrite db_coll_insert. fold docs. unfold lift.
    by rewrite Hout. }
  split; [done|]. split; [done|].
  by eapply character_views_sorted; [apply coll_find_sorted_Sorted|].
Qed.

Lemma existsb_matches_false (id : string) (c : collection) :
  existsb (matches "_id" (VStr id)) c = false → fresh_id id c.
Proof.
  induction c as [|x c IH]; simpl; [constructor|].
  intros [Hx Hc]%orb_false_iff. constructor; [|by apply IH].
  unfold matches in Hx. by apply bool_decide_eq_false_1 in Hx.
Qed.

(** A creation that returns was given an identifier the store accepted:
    no stored character carried it. *)
Lemma create_character_returns_fresh (w w' : World) (d : database)
    (c : Character.t) (o : CharacterOut.t) :
  db w = Some d →
  create_character c w = (inr o, w') →
  fresh_id (uuid_at w (uuid_draws w)) (db_coll "character" d).
Proof.
  intros Hdb. unfold create_character, bind.
  rewrite (run_db_is_None _ _ Hdb).
  destruct w as [dbw nw cr uu ud hs]. simpl in *. subst dbw.
  unfold insert_one, write_coll. simpl.
  fold (character_record c (uu ud) (nw cr)).
  destruct (coll_insert_one _ (db_coll "character" d)) as [e|c'] eqn:Hi; simpl;
    [done|].
  intros _. unfold coll_insert_one in Hi.
  destruct (character_record_fields c (uu ud) (nw cr)) as (Hid & _).
  rewrite Hid in Hi.
  destruct (existsb _ _) eqn:He in Hi; [done|].
  by apply existsb_matches_false.
Qed.

(** C7: whenever two creations with the same input fields both return,
    they have appended two records to the character collection (nothing
    already stored is touched) under two distinct identifiers — the store
    refuses a key it already holds, so the second record cannot reuse the
    first one's — each record with [created_at] equal to [updated_at]; the
    listing then returns every character, each shown through
    [CharacterOut], in descending order of [created_at].  Both creations
    do return when the identifiers drawn are fresh and different. *)
Theorem create_character_twice (w : World) (d : database) (c : Character.t) :
  db w = Some d →
  Forall (fun x => is_Some (character_view x)) (db_coll "character" d) →
  (fresh_id (uuid_at w (uuid_draws w)) (db_coll "character" d) →
   fresh_id (uuid_at w (S (uuid_draws w))) (db_coll "character" d) →
   uuid_at w (uuid_draws w) ≠ uuid_at w (S (uuid_draws w)) →
   ∃ (o1 o2 : CharacterOut.t) (w1 w2 : World),
     create_character c w = (inr o1, w1) ∧
     create_character c w1 = (inr o2, w2)) ∧
  ∀ (o1 o2 : CharacterOut.t) (w1 w2 : World),
    create_character c w = (inr o1, w1) →
    create_character c w1 = (inr o2, w2) →
    CharacterOut.id o1 ≠ CharacterOut.id o2 ∧
    ∃ (d2 : database) (r1 r2 : dict) (docs : list dict)
      (out : list CharacterOut.t),
      db w2 = Some d2 ∧
      db_coll "character" d2 = db_coll "character" d ++ [r1; r2] ∧
      character_view r1 = Some o1 ∧
      character_view r2 = Some o2 ∧
      r1 !! "_id" ≠ r2 !! "_id" ∧
      r1 !! "created_at" = Some (VTime (CharacterOut.created_at o1)) ∧
      r1 !! "updated_at" = r1 !! "created_at" ∧
      r2 !! "created_at" = Some (VTime (CharacterOut.created_at o2)) ∧
      r2 !! "updated_at" = r2 !! "created_at" ∧
      list_characters w2 = (inr out, w2) ∧
      docs ≡ₚ db_coll "character" d ++ [r1; r2] ∧
      character_view <$> docs = Some <$> out ∧
      StronglySorted
        (fun a b => CharacterOut.created_at b ≤ CharacterOut.created_at a) out.
Proof.
  intros Hdb Hwf. split.
  - intros Hf1 Hf2 Hne.
    destruct (create_character_pair_fresh w d c Hdb Hf1 Hf2 Hne Hwf)
      as (o1 & o2 & w1 & w2 & _ & _ & _ & _ & _ & H1 & H2 & _).
    by exists o1, o2, w1, w2.
  - intros o1 o2 w1 w2 H1 H2.
    (* the first creation returned: its identifier was free *)
    pose proof (create_character_returns_fresh _ _ _ _ _ Hdb H1) as Hf1.
    pose proof (create_character_run w d c Hdb Hf1) as Hrun1. cbv zeta in Hrun1.
    rewrite Hrun1 in H1. injection H1 as Ho1 Hw1.
    (* so did the second, in the store that already holds the first record *)
    assert (Hdb1 : db w1 = Some (<["character" :=
                     db_coll "character" d
                     ++ [character_record c (uuid_at w (uuid_draws w))
                           (now_at w (clock_reads w))]]> d))
      by by rewrite <- Hw1.
    pose proof (create_character_returns_fresh _ _ _ _ _ Hdb1 H2) as Hf2.
    rewrite db_coll_insert in Hf2. rewrite <- Hw1 in Hf2. simpl in Hf2.
    apply Forall_app in Hf2 as [Hf2 Hrec].
    apply Forall_cons in Hrec as [Hrec _].
    destruct (character_record_fields c (uuid_at w (uuid_draws w))
                (now_at w (clock_reads w))) as (Hid1 & _).
    assert (Hne : uuid_at w (uuid_draws w) ≠ uuid_at w (S (uuid_draws w))).
    { intros Heq. apply Hrec. by rewrite Hid1, Heq. }
    destruct (create_character_pair_fresh w d c Hdb Hf1 Hf2 Hne Hwf)
      as (o1' & o2' & w1' & w2' & d2 & r1 & r2 & docs & out & H1' & H2' & Hids
          & Hrest).
    rewrite Hrun1 in H1'. injection H1' as Ho1' Hw1'.
    assert (w1' = w1) as -> by by rewrite <- Hw1, <- Hw1'.
    rewrite H2 in H2'. injection H2' as -> ->.
    assert (o1' = o1) as -> by by rewrite <- Ho1, <- Ho1'.
    split; [done|]. by exists d2, r1, r2, docs, out.
Qed.

(** ** Users *)

Lemma coll_find_one_split (k : string) (v : pyval) (c : collection) (e : dict) :
  coll_find_one k v c = Some e →
  ∃ l1 l2, c = l1 ++ e :: l2 ∧ Forall (fun x => x !! k ≠ Some v) l1 ∧
           e !! k = Some v.
Proof.
  unfold coll_find_one. induction c as [|x c IH]; [done|]. simpl.
  unfold matches at 1. case_bool_decide as Hx.
  - intros [= ->]. by exists [], c.
  - intros (l1 & l2 & -> & Hl1 & He)%IH. exists (x :: l1), l2.
    split; [done|]. split; [by constructor|done].
Qed.

Lemma coll_find_one_None_inv (k : string) (v : pyval) (c : collection) :
  coll_find_one k v c = None → Forall (fun x => x !! k ≠ Some v) c.
Proof.
  unfold coll_find_one. induction c as [|x c IH]; [by constructor|]. simpl.
  unfold matches at 1. case_bool_decide as Hx; [done|].
  intros H. constructor; [done|by apply IH].
Qed.

Lemma coll_find_one_at (k : string) (v : pyval) (l1 l2 : collection) (e : dict) :
  Forall (fun x => x !! k ≠ Some v) l1 → e !! k = Some v →
  coll_find_one k v (l1 ++ e :: l2) = Some e.
Proof.
  unfold coll_find_one. induction 1 as [|x l1 Hx _ IH]; intros He; simpl.
  - unfold matches. by rewrite bool_decide_eq_true_2.
  - unfold matches at 1. rewrite bool_decide_eq_false_2 by done. by apply IH.
Qed.

Lemma coll_update_one_at (k : string) (v : pyval) (fields : dict)
    (l1 l2 : collection) (e : dict) :
  Forall (fun x => x !! k ≠ Some v) l1 → e !! k = Some v →
  coll_update_one k v fields (l1 ++ e :: l2) = l1 ++ (fields ∪ e) :: l2.
Proof.
  induction 1 as [|x l1 Hx _ IH]; intros He; simpl.
  - unfold matches. by rewrite bool_decide_eq_true_2.
  - unfold matches at 1. rewrite bool_decide_eq_false_2 by done.
    by rewrite IH.
Qed.

Lemma filter_matches_none (k : string) (v : pyval) (c : collection) :
  Forall (fun x => x !! k ≠ Some v) c → List.filter (matches k v) c = [].
Proof.
  induction 1 as [|x c Hx _ IH]; [done|]. simpl.
  unfold matches at 1. by rewrite bool_decide_eq_false_2.
Qed.

(** In a well-formed user collection, looking for a username and looking
    for the key of that name select the same records. *)
Lemma user_keyed_id_username (x : dict) (u : string) :
  user_keyed x → (x !! "_id" = Some (VStr u) ↔ x !! "username" = Some (VStr u)).
Proof. intros (n & Hi & Hu). rewrite Hi, Hu. done. Qed.

Lemma users_other_names (l : collection) (u : string) :
  Forall user_keyed l →
  Some (VStr u) ∉ ((.!! "_id") <$> l) →
  Forall (fun x => x !! "username" ≠ Some (VStr u)) l.
Proof.
  induction 1 as [|x l Hx _ IH]; [constructor|]. rewrite fmap_cons, not_elem_of_cons.
  intros [Hne Hl]. constructor; [|by apply IH].
  rewrite <- (user_keyed_id_username _ _ Hx). congruence.
Qed.

Lemma users_other_ids (l : collection) (u : string) :
  Forall user_keyed l →
  Forall (fun x => x !! "username" ≠ Some (VStr u)) l →
  Forall (fun x => x !! "_id" ≠ Some (VStr u)) l.
Proof.
  intros Hk Hn. induction Hk as [|x l Hx _ IH]; [constructor|].
  apply Forall_cons in Hn as [Hn1 Hn2]. constructor; [|by apply IH].
  by rewrite (user_keyed_id_username _ _ Hx).
Qed.

Lemma UserProfile_new_dump (p : UserProfile.t) :
  UserProfile_valid p →
  UserProfile_new (VStr (UserProfile.username p)) (opt_int (UserProfile.age p))
    (VInt (UserProfile.trust_score p)) = inr p.
Proof.
  destruct p as [u a ts]. intros (Hu & Ha & Hts). simpl in *.
  unfold UserProfile_new, as_str_len, as_opt_int_range, as_int_range.
  rewrite bool_decide_eq_true_2 by done.
  destruct a as [a|]; simpl; by rewrite !bool_decide_eq_true_2.
Qed.

(** The fields [upsert_user] sends to the store. *)
Lemma upsert_payload_fields (p : UserProfile.t) (t : Z) :
  let payload := <["updated_at" := VTime t]> (UserProfile_model_dump p) in
  payload !! "_id" = None ∧
  payload !! "username" = Some (VStr (UserProfile.username p)) ∧
  payload !! "age" = Some (opt_int (UserProfile.age p)) ∧
  payload !! "trust_score" = Some (VInt (UserProfile.trust_score p)).
Proof. unfold UserProfile_model_dump. repeat split; by simplify_map_eq. Qed.

(** One upsert on a well-formed user collection: it returns the profile
    it was given and leaves a well-formed collection with exactly one
    record of that username, carrying the given age and trust score. *)
Lemma upsert_user_run (w : World) (d : database) (p : UserProfile.t) :
  db w = Some d →
  users_wf (db_coll "userprofile" d) →
  UserProfile_valid p →
  ∃ (w' : World) (users' : collection) (doc : dict),
    upsert_user p w = (inr p, w') ∧
    db w' = Some (<["userprofile" := users']> d) ∧
    users_wf users' ∧
    List.filter (matches "username" (VStr (UserProfile.username p))) users'
    = [doc] ∧
    doc !! "age" = Some (opt_int (UserProfile.age p)) ∧
    doc !! "trust_score" = Some (VInt (UserProfile.trust_score p)).
Proof.
  intros Hdb [Hkeyed Hnodup] Hvalid.
  set (u := UserProfile.username p).
  set (users := db_coll "userprofile" d) in *.
  unfold upsert_user, bind. rewrite (run_db_is_None _ _ Hdb). unfold find_one.
  rewrite (run_read_coll _ _ _ _ Hdb). fold users u.
  destruct w as [dbw nw cr uu ud hs]. simpl in *. subst dbw.
  set (payload := <["updated_at" := VTime (nw cr)]> (UserProfile_model_dump p)).
  destruct (upsert_payload_fields p (nw cr)) as (Hpid & Hpu & Hpa & Hpt).
  fold payload in Hpid, Hpu, Hpa, Hpt.
  pose proof (UserProfile_new_dump _ Hvalid) as Hnew. fold u in Hnew, Hpu.
  destruct (coll_find_one "username" (VStr u) users) as [e|] eqn:Hfind.
  - (* the username is stored: update in place *)
    rewrite (if_doc_found _ _ _ _ Hfind).
    destruct (coll_find_one_split _ _ _ _ Hfind) as (l1 & l2 & Husers & Hl1 & He).
    rewrite Husers in Hkeyed, Hnodup.
    apply Forall_app in Hkeyed as [Hk1 Hk2].
    apply Forall_cons in Hk2 as [Hke Hk2].
    assert (Heid : e !! "_id" = Some (VStr u))
      by by apply (user_keyed_id_username _ _ Hke).
    assert (Hl1id : Forall (fun x => x !! "_id" ≠ Some (VStr u)) l1)
      by by apply users_other_ids.
    assert (Hnew_id : (payload ∪ e) !! "_id" = Some (VStr u)).
    { by rewrite lookup_union_r. }
    assert (Hnew_u : (payload ∪ e) !! "username" = Some (VStr u)).
    { by apply lookup_union_Some_l. }
    unfold lift, getitem. rewrite Heid. simpl.
    unfold update_one, write_coll. simpl. fold users. rewrite Husers.
    rewrite (coll_update_one_at _ _ _ _ _ _ Hl1id Heid).
    unfold read_coll. simpl. rewrite db_coll_insert.
    rewrite (coll_find_one_at _ _ _ _ _ Hl1id Hnew_id).
    unfold dict_get. rewrite Hnew_u.
    rewrite (lookup_union_Some_l _ _ _ _ Hpa), (lookup_union_Some_l _ _ _ _ Hpt).
    simpl. rewrite Hnew.
    eexists _, (l1 ++ (payload ∪ e) :: l2), (payload ∪ e).
    split; [reflexivity|]. split; [reflexivity|].
    assert (Hids : (.!! "_id") <$> (l1 ++ (payload ∪ e) :: l2)
                   = (.!! "_id") <$> (l1 ++ e :: l2)).
    { rewrite !fmap_app, !fmap_cons. by rewrite Hnew_id, Heid. }
    split.
    { split; [|by rewrite Hids].
      apply Forall_app. split; [done|]. constructor; [|done]. by exists u. }
    split.
    { rewrite fmap_app, fmap_cons, Heid in Hnodup.
      apply NoDup_app in Hnodup as (_ & Hdisj & Hnd2).
      apply NoDup_cons in Hnd2 as [Hnot2 _].
      rewrite List.filter_app. simpl.
      rewrite (filter_matches_none _ _ l1 Hl1).
      rewrite (filter_matches_none _ _ l2) by by apply users_other_names.
      unfold matches. by rewrite bool_decide_eq_true_2. }
    split; by apply lookup_union_Some_l.
  - (* the username is new: insert under the username as key *)
    simpl.
    apply coll_find_one_None_inv in Hfind.
    assert (Hfresh : fresh_id u users) by by apply users_other_ids.
    set (doc := <["_id" := VStr u]> (<["created_at" := VTime (nw (S cr))]> payload)).
    assert (Hdid : doc !! "_id" = Some (VStr u)) by apply lookup_insert_eq.
    assert (Hdu : doc !! "username" = Some (VStr u))
      by (unfold doc; by rewrite !lookup_insert_ne).
    assert (Hda : doc !! "age" = Some (opt_int (UserProfile.age p)))
      by (unfold doc; by rewrite !lookup_insert_ne).
    assert (Hdt : doc !! "trust_score" = Some (VInt (UserProfile.trust_score p)))
      by (unfold doc; by rewrite !lookup_insert_ne).
    unfold insert_one, write_coll. simpl. fold users payload u doc.
    rewrite (coll_insert_one_fresh u) by done. simpl.
    unfold lift, dict_get. rewrite Hdu, Hda, Hdt. simpl.
    rewrite Hnew.
    eexists _, (users ++ [doc]), doc.
    split; [reflexivity|]. split; [reflexivity|].
    split.
    { split.
      - apply Forall_app. split; [done|]. constructor; [by exists u|constructor].
      - rewrite fmap_app. apply NoDup_app. split; [done|]. split.
        + intros x Hx. simpl. rewrite Hdid. intros ->%list_elem_of_singleton.
          apply list_elem_of_fmap in Hx as (y & Hy & Hin).
          unfold fresh_id in Hfresh. rewrite Forall_forall in Hfresh.
          by apply (Hfresh y).
        + simpl. apply NoDup_singleton. }
    split.
    { rewrite List.filter_app, (filter_matches_none _ _ users Hfind). simpl.
      unfold matches. by rewrite bool_decide_eq_true_2. }
    done.
Qed.

(** C4: on a store whose user records are keyed by username, two upserts
    of valid profiles with the same username both succeed, each returning
    the three-field projection of the profile it was given, and leave
    exactly one record of that username, whose age and trust score are
    those of the second call. *)
Theorem upsert_user_twice (w : World) (d : database) (p1 p2 : UserProfile.t) :
  db w = Some d →
  users_wf (db_coll "userprofile" d) →
  UserProfile_valid p1 → UserProfile_valid p2 →
  UserProfile.username p1 = UserProfile.username p2 →
  ∃ (w1 w2 : World) (d2 : database) (doc : dict),
    upsert_user p1 w = (inr p1, w1) ∧
    upsert_user p2 w1 = (inr p2, w2) ∧
    db w2 = Some d2 ∧
    List.filter (matches "username" (VStr (UserProfile.username p2)))
      (db_coll "userprofile" d2) = [doc] ∧
    doc !! "age" = Some (opt_int (UserProfile.age p2)) ∧
    doc !! "trust_score" = Some (VInt (UserProfile.trust_score p2)).
Proof.
  intros Hdb Hwf Hv1 Hv2 Hsame.
  destruct (upsert_user_run w d p1 Hdb Hwf Hv1)
    as (w1 & users1 & doc1 & Hrun1 & Hdb1 & Hwf1 & _).
  assert (Hwf1' : users_wf (db_coll "userprofile" (<["userprofile" := users1]> d)))
    by by rewrite db_coll_insert.
  destruct (upsert_user_run w1 _ p2 Hdb1 Hwf1' Hv2)
    as (w2 & users2 & doc2 & Hrun2 & Hdb2 & _ & Hfilter & Hage & Hts).
  exists w1, w2, (<["userprofile" := users2]> (<["userprofile" := users1]> d)), doc2.
  rewrite db_coll_insert. done.
Qed.

(** ** The shape of the store is kept

    The hypotheses of the statements above hold of the empty store and
    are kept by the handlers that write. *)

Lemma users_wf_nil : users_wf [].
Proof. split; [constructor|]. rewrite fmap_nil. apply NoDup_nil_2. Qed.

(** X11: [upsert_user] with a valid profile keeps the user collection
    keyed by username and free of duplicate keys. *)
Lemma upsert_user_keeps_wf (w : World) (d : database) (p : UserProfile.t) :
  db w = Some d →
  users_wf (db_coll "userprofile" d) →
  UserProfile_valid p →
  ∃ d', db (snd (upsert_user p w)) = Some d' ∧ users_wf (db_coll "userprofile" d').
Proof.
  intros Hdb Hwf Hv.
  destruct (upsert_user_run w d p Hdb Hwf Hv) as (w' & us & _ & Hrun & Hdb' & Hwf' & _).
  rewrite Hrun. simpl. eexists. split; [exact Hdb'|]. by rewrite db_coll_insert.
Qed.

(** X12: a chat turn for a well-formed character keeps every stored
    message readable as a [MessageOut]. *)
Lemma post_message_keeps_views (w : World) (d : database)
    (character_id : string) (payload : ChatIn.t) (char : dict) (nm : string) :
  db w = Some d →
  coll_find_one "_id" (VStr character_id) (db_coll "character" d) = Some char →
  char !! "name" = Some (VStr nm) →
  fresh_id (uuid_at w (uuid_draws w)) (db_coll "message" d) →
  fresh_id (uuid_at w (S (uuid_draws w))) (db_coll "message" d) →
  uuid_at w (uuid_draws w) ≠ uuid_at w (S (uuid_draws w)) →
  Forall (fun m => is_Some (message_view m)) (db_coll "message" d) →
  ∃ d', db (snd (post_message character_id payload w)) = Some d' ∧
        Forall (fun m => is_Some (message_view m)) (db_coll "message" d').
Proof.
  intros Hdb Hc Hn Hf1 Hf2 Hne Hwf.
  pose proof (post_message_run w d character_id payload char Hdb Hc Hf1 Hf2 Hne)
    as Hrun. cbv zeta in Hrun. rewrite Hrun. simpl.
  eexists. split; [reflexivity|]. rewrite db_coll_insert.
  apply Forall_app. split; [done|].
  unfold dict_get_or. rewrite Hn. simpl.
  constructor; [rewrite message_view_user; eauto|].
  constructor; [rewrite message_view_character; eauto|constructor].
Qed.

(** X13: a creation keeps every stored character readable as a
    [CharacterOut]. *)
Lemma create_character_keeps_views (w : World) (d : database) (c : Character.t) :
  db w = Some d →
  fresh_id (uuid_at w (uuid_draws w)) (db_coll "character" d) →
  Forall (fun x => is_Some (character_view x)) (db_coll "character" d) →
  ∃ d', db (snd (create_character c w)) = Some d' ∧
        Forall (fun x => is_Some (character_view x)) (db_coll "character" d').
Proof.
  intros Hdb Hf Hwf.
  pose proof (create_character_run w d c Hdb Hf) as Hrun. cbv zeta in Hrun.
  rewrite Hrun. simpl. eexists. split; [reflexivity|]. rewrite db_coll_insert.
  apply Forall_app. split; [done|].
  destruct (character_record_fields c (uuid_at w (uuid_draws w))
              (now_at w (clock_reads w))) as (_ & _ & _ & Hv).
  constructor; [rewrite Hv; eauto|constructor].
Qed.

(** ** Error paths and effects of the handlers *)

Lemma run_db_is_None_off (w : World) :
  db w = None → db_is_None w = (inr true, w).
Proof. intros H. unfold db_is_None. by rewrite H. Qed.

(** X1: without a store handle every data handler raises
    HTTPException 500 "Database not available" before doing anything else:
    no clock read, no identifier drawn. *)
Theorem handlers_store_unavailable (w : World) (profile : UserProfile.t)
    (username : string) (character : Character.t) (character_id : string)
    (payload : ChatIn.t) (req : ImageRequest.t) :
  db w = None →
  upsert_user profile w = (inl (HTTPException 500 "Database not available"), w) ∧
  get_user username w = (inl (HTTPException 500 "Database not available"), w) ∧
  create_character character w
  = (inl (HTTPException 500 "Database not available"), w) ∧
  list_characters w = (inl (HTTPException 500 "Database not available"), w) ∧
  post_message character_id payload w
  = (inl (HTTPException 500 "Database not available"), w) ∧
  get_messages character_id w
  = (inl (HTTPException 500 "Database not available"), w) ∧
  generate_image req w = (inl (HTTPException 500 "Database not available"), w).
Proof.
  intros Hdb.
  unfold upsert_user, get_user, create_character, list_characters, post_message,
    get_messages, generate_image, bind.
  rewrite (run_db_is_None_off _ Hdb). by repeat split.
Qed.

Lemma handlers_unavailable_post (w : World) (character_id : string)
    (payload : ChatIn.t) :
  db w = None →
  post_message character_id payload w
  = (inl (HTTPException 500 "Database not available"), w).
Proof.
  intros Hdb. unfold post_message, bind. by rewrite (run_db_is_None_off _ Hdb).
Qed.

(** X2: the three reading handlers hand back the environment they were
    given, whatever it is and whether they succeed or raise. *)
Theorem readers_leave_world (w : World) (username character_id : string) :
  snd (get_user username w) = w ∧
  snd (list_characters w) = w ∧
  snd (get_messages character_id w) = w.
Proof.
  unfold get_user, list_characters, get_messages, bind, find_one, find_sorted,
    read_coll, db_is_None, raise, lift.
  cbv beta. destruct (db w) as [d|] eqn:Hdb.
  - rewrite bool_decide_eq_false_2 by done. simpl. rewrite !Hdb. simpl.
    repeat split. by case_match.
  - by rewrite bool_decide_eq_true_2.
Qed.

(** X3: [generate_image] persists nothing: in every case the store and
    the clock are as before, and at most one identifier has been drawn. *)
Theorem generate_image_no_persistence (w : World) (req : ImageRequest.t) :
  db (snd (generate_image req w)) = db w ∧
  clock_reads (snd (generate_image req w)) = clock_reads w ∧
  (uuid_draws (snd (generate_image req w)) = uuid_draws w ∨
   uuid_draws (snd (generate_image req w)) = S (uuid_draws w)).
Proof.
  unfold generate_image, bind, find_one, read_coll, db_is_None, raise, salt,
    uuid4, ret.
  cbv beta. destruct (db w) as [d|] eqn:Hdb.
  - rewrite bool_decide_eq_false_2 by done. simpl. rewrite Hdb.
    destruct (if_doc (coll_find_one _ _ (db_coll "character" d))); simpl; [|auto].
    rewrite Hdb.
    destruct (if_doc (coll_find_one _ _ (db_coll "userprofile" d))); simpl; [|auto].
    destruct (ImageRequest.rating req); simpl; auto.
  - rewrite bool_decide_eq_true_2 by done. simpl. auto.
Qed.

(** X4: a response of [generate_image] is of one of two kinds, decided by
    the rating alone: "blocked" without URL for NSFW, or "completed" with
    the placeholder URL of a seed between 0 and 999 for SFW; its id is the
    identifier drawn for it. *)
Theorem generate_image_outcomes (w w' : World) (req : ImageRequest.t)
    (r : ImageGenResponse.t) :
  generate_image req w = (inr r, w') →
  ImageGenResponse.id r = uuid_at w (uuid_draws w) ∧
  uuid_draws w' = S (uuid_draws w) ∧
  ((ImageRequest.rating req = NSFW ∧
    ImageGenResponse.status r = "blocked" ∧
    ImageGenResponse.image_url r = None) ∨
   (ImageRequest.rating req = SFW ∧
    ImageGenResponse.status r = "completed" ∧
    ∃ seed, 0 ≤ seed < 1000 ∧
            ImageGenResponse.image_url r
            = Some ("https://picsum.photos/seed/" +:+ pretty seed +:+ "/768/512"))).
Proof.
  unfold generate_image, bind, find_one, read_coll, db_is_None, raise, salt,
    uuid4, ret.
  cbv beta. destruct (db w) as [d|] eqn:Hdb.
  - rewrite bool_decide_eq_false_2 by done. simpl. rewrite Hdb.
    destruct (if_doc (coll_find_one _ _ (db_coll "character" d))); simpl; [|done].
    rewrite Hdb.
    destruct (if_doc (coll_find_one _ _ (db_coll "userprofile" d))); simpl; [|done].
    destruct (ImageRequest.rating req); simpl; intros [= <- <-]; simpl.
    + split; [done|]. split; [done|]. right. split; [done|]. split; [done|].
      eexists. split; [|reflexivity]. by apply Z.mod_pos_bound.
    + split; [done|]. split; [done|]. by left.
  - by rewrite bool_decide_eq_true_2.
Qed.

(** X5: an image request naming a character id that no record carries is
    refused with 404 "Character not found", whatever its rating and
    whether or not the user exists; nothing is consumed. *)
Theorem generate_image_unknown_character (w : World) (d : database)
    (req : ImageRequest.t) :
  db w = Some d →
  fresh_id (ImageRequest.character_id req) (db_coll "character" d) →
  generate_image req w = (inl (HTTPException 404 "Character not found"), w).
Proof.
  intros Hdb Hf. unfold generate_image, bind.
  rewrite (run_db_is_None _ _ Hdb). unfold find_one.
  by rewrite (run_read_coll _ _ _ _ Hdb), (coll_find_one_None _ _ _ Hf).
Qed.

(** X6: with the character present but no record of the username, an
    image request is refused with 404 "User not found"; this comes before
    the rating is looked at, so an NSFW request gets the 404 and not the
    "blocked" response. *)
Theorem generate_image_unknown_user (w : World) (d : database)
    (req : ImageRequest.t) (char : dict) :
  db w = Some d →
  coll_find_one "_id" (VStr (ImageRequest.character_id req))
    (db_coll "character" d) = Some char →
  Forall (fun u => u !! "username" ≠ Some (VStr (ImageRequest.username req)))
    (db_coll "userprofile" d) →
  generate_image req w = (inl (HTTPException 404 "User not found"), w).
Proof.
  intros Hdb Hc Hu. unfold generate_image, bind.
  rewrite (run_db_is_None _ _ Hdb). unfold find_one.
  rewrite (run_read_coll _ _ _ _ Hdb), Hc, (if_doc_found _ _ _ _ Hc).
  by rewrite (run_read_coll _ _ _ _ Hdb), (coll_find_one_None _ _ _ Hu).
Qed.

(** X7: looking up a username that no user record carries is refused
    with 404 "User not found". *)
Theorem get_user_unknown (w : World) (d : database) (username : string) :
  db w = Some d →
  Forall (fun u => u !! "username" ≠ Some (VStr username))
    (db_coll "userprofile" d) →
  get_user username w = (inl (HTTPException 404 "User not found"), w).
Proof.
  intros Hdb Hu. unfold get_user, bind.
  rewrite (run_db_is_None _ _ Hdb). unfold find_one.
  by rewrite (run_read_coll _ _ _ _ Hdb), (coll_find_one_None _ _ _ Hu).
Qed.

(** ** Users: lookup after upsert, and what an upsert changes *)

Lemma coll_find_one_head_filter (k : string) (v : pyval) (c : collection) :
  coll_find_one k v c = head (List.filter (matches k v) c).
Proof.
  unfold coll_find_one. induction c as [|x c IH]; [done|]. simpl.
  by destruct (matches k v x).
Qed.

(** X8: after a successful upsert of a valid profile, [get_user] with
    its username returns that same profile. *)
Theorem upsert_then_get_user (w : World) (d : database) (p : UserProfile.t) :
  db w = Some d →
  users_wf (db_coll "userprofile" d) →
  UserProfile_valid p →
  ∃ w', upsert_user p w = (inr p, w') ∧
        get_user (UserProfile.username p) w' = (inr p, w').
Proof.
  intros Hdb Hwf Hv.
  destruct (upsert_user_run w d p Hdb Hwf Hv)
    as (w' & users' & doc & Hrun & Hdb' & _ & Hfilter & Hage & Hts).
  exists w'. split; [done|].
  assert (Hfind : coll_find_one "username" (VStr (UserProfile.username p)) users'
                  = Some doc)
    by by rewrite coll_find_one_head_filter, Hfilter.
  destruct (coll_find_one_Some _ _ _ _ Hfind) as [_ Hu].
  unfold get_user, bind. rewrite (run_db_is_None _ _ Hdb'). unfold find_one.
  rewrite (run_read_coll _ _ _ _ Hdb'), db_coll_insert, Hfind,
    (if_doc_found _ _ _ _ Hfind).
  unfold lift, dict_get. rewrite Hu, Hage, Hts. simpl.
  by rewrite (UserProfile_new_dump _ Hv).
Qed.

(** X9: the first upsert of a username appends one record whose key is
    the username itself; it reads the clock twice, [updated_at] being the
    first reading and [created_at] the second; the records already stored
    are left as they were. *)
Theorem upsert_user_inserts (w : World) (d : database) (p : UserProfile.t) :
  db w = Some d →
  UserProfile_valid p →
  Forall (fun x => x !! "username" ≠ Some (VStr (UserProfile.username p)))
    (db_coll "userprofile" d) →
  fresh_id (UserProfile.username p) (db_coll "userprofile" d) →
  ∃ (w' : World) (doc : dict),
    upsert_user p w = (inr p, w') ∧
    db w' = Some (<["userprofile" := db_coll "userprofile" d ++ [doc]]> d) ∧
    clock_reads w' = S (S (clock_reads w)) ∧
    doc !! "_id" = Some (VStr (UserProfile.username p)) ∧
    doc !! "username" = Some (VStr (UserProfile.username p)) ∧
    doc !! "age" = Some (opt_int (UserProfile.age p)) ∧
    doc !! "trust_score" = Some (VInt (UserProfile.trust_score p)) ∧
    doc !! "updated_at" = Some (VTime (now_at w (clock_reads w))) ∧
    doc !! "created_at" = Some (VTime (now_at w (S (clock_reads w)))).
Proof.
  intros Hdb Hvalid Hnone Hfresh.
  set (u := UserProfile.username p) in *.
  set (users := db_coll "userprofile" d) in *.
  unfold upsert_user, bind. rewrite (run_db_is_None _ _ Hdb). unfold find_one.
  rewrite (run_read_coll _ _ _ _ Hdb). fold users u.
  rewrite (coll_find_one_None _ _ _ Hnone).
  destruct w as [dbw nw cr uu ud hs]. simpl in *. subst dbw.
  set (doc := <["_id" := VStr u]>
                (<["created_at" := VTime (nw (S cr))]>
                   (<["updated_at" := VTime (nw cr)]> (UserProfile_model_dump p)))).
  assert (Hfields :
    doc !! "_id" = Some (VStr u) ∧ doc !! "username" = Some (VStr u) ∧
    doc !! "age" = Some (opt_int (UserProfile.age p)) ∧
    doc !! "trust_score" = Some (VInt (UserProfile.trust_score p)) ∧
    doc !! "updated_at" = Some (VTime (nw cr)) ∧
    doc !! "created_at" = Some (VTime (nw (S cr)))).
  { unfold doc, UserProfile_model_dump. repeat split; by simplify_map_eq. }
  destruct Hfields as (Hid & Hu & Ha & Ht & Hup & Hcr).
  unfold insert_one, write_coll. simpl. fold users u doc.
  rewrite (coll_insert_one_fresh u) by done. simpl.
  unfold lift, dict_get. rewrite Hu, Ha, Ht. simpl.
  pose proof (UserProfile_new_dump _ Hvalid) as Hnew. fold u in Hnew. rewrite Hnew.
  eexists _, doc. split; [reflexivity|]. simpl. by repeat split.
Qed.

(** X10: an upsert of a stored username updates that record in place:
    the collection keeps its length and order, the record keeps its key,
    its [created_at] and every field the profile does not carry,
    [updated_at] becomes the single clock reading taken, and all other
    records are untouched. *)
Theorem upsert_user_updates (w : World) (d : database) (p : UserProfile.t)
    (e : dict) :
  db w = Some d →
  users_wf (db_coll "userprofile" d) →
  UserProfile_valid p →
  coll_find_one "username" (VStr (UserProfile.username p))
    (db_coll "userprofile" d) = Some e →
  ∃ (w' : World) (l1 l2 : collection) (e' : dict),
    db_coll "userprofile" d = l1 ++ e :: l2 ∧
    upsert_user p w = (inr p, w') ∧
    db w' = Some (<["userprofile" := l1 ++ e' :: l2]> d) ∧
    clock_reads w' = S (clock_reads w) ∧
    e' !! "_id" = e !! "_id" ∧
    e' !! "created_at" = e !! "created_at" ∧
    e' !! "updated_at" = Some (VTime (now_at w (clock_reads w))) ∧
    e' !! "age" = Some (opt_int (UserProfile.age p)) ∧
    e' !! "trust_score" = Some (VInt (UserProfile.trust_score p)) ∧
    (∀ k, k ≠ "username" → k ≠ "age" → k ≠ "trust_score" → k ≠ "updated_at" →
          e' !! k = e !! k).
Proof.
  intros Hdb [Hkeyed Hnodup] Hvalid Hfind.
  set (u := UserProfile.username p) in *.
  set (users := db_coll "userprofile" d) in *.
  unfold upsert_user, bind. rewrite (run_db_is_None _ _ Hdb). unfold find_one.
  rewrite (run_read_coll _ _ _ _ Hdb). fold users u.
  destruct w as [dbw nw cr uu ud hs]. simpl in *. subst dbw.
  rewrite Hfind, (if_doc_found _ _ _ _ Hfind).
  set (payload := <["updated_at" := VTime (nw cr)]> (UserProfile_model_dump p)).
  destruct (upsert_payload_fields p (nw cr)) as (Hpid & Hpu & Hpa & Hpt).
  fold payload in Hpid, Hpu, Hpa, Hpt.
  pose proof (UserProfile_new_dump _ Hvalid) as Hnew. fold u in Hnew, Hpu.
  destruct (coll_find_one_split _ _ _ _ Hfind) as (l1 & l2 & Husers & Hl1 & He).
  rewrite Husers in Hkeyed.
  apply Forall_app in Hkeyed as [Hk1 Hk2].
  apply Forall_cons in Hk2 as [Hke Hk2].
  assert (Heid : e !! "_id" = Some (VStr u))
    by by apply (user_keyed_id_username _ _ Hke).
  assert (Hl1id : Forall (fun x => x !! "_id" ≠ Some (VStr u)) l1)
    by by apply users_other_ids.
  assert (Hnew_id : (payload ∪ e) !! "_id" = Some (VStr u))
    by by rewrite lookup_union_r.
  assert (Hnew_u : (payload ∪ e) !! "username" = Some (VStr u))
    by by apply lookup_union_Some_l.
  eexists _, l1, l2, (payload ∪ e).
  split; [done|].
  unfold lift, getitem. rewrite Heid. simpl.
  unfold update_one, write_coll. simpl. fold users. rewrite Husers.
  rewrite (coll_update_one_at _ _ _ _ _ _ Hl1id Heid).
  unfold read_coll. simpl. rewrite db_coll_insert.
  rewrite (coll_find_one_at _ _ _ _ _ Hl1id Hnew_id).
  unfold dict_get. rewrite Hnew_u.
  rewrite (lookup_union_Some_l _ _ _ _ Hpa), (lookup_union_Some_l _ _ _ _ Hpt).
  simpl. rewrite Hnew.
  split; [reflexivity|]. simpl.
  split; [done|]. split; [done|].
  split; [exact Hnew_id|].
  split.
  { apply lookup_union_r. unfold payload, UserProfile_model_dump.
    by simplify_map_eq. }
  split.
  { apply lookup_union_Some_l. unfold payload. by simplify_map_eq. }
  split; [done|]. split; [done|].
  intros k ? ? ? ?. apply lookup_union_r.
  unfold payload, UserProfile_model_dump. by simplify_map_eq.
Qed.

(** ** Chat: reading back, isolation and referential integrity *)

Lemma traverse_inr {A B} (f : A → result B) (l : list A) (out : list B) :
  traverse f l = inr out → Forall2 (fun x y => f x = inr y) l out.
Proof.
  revert out. induction l as [|x l IH]; intros out; simpl.
  - intros [= <-]. constructor.
  - destruct (f x) as [e|y] eqn:Hx; simpl; [done|].
    destruct (traverse f l) as [e|ys]; simpl; [done|].
    intros [= <-]. constructor; [done|by apply IH].
Qed.

Lemma if_doc_Some (o : option dict) (d : dict) : if_doc o = Some d → o = Some d.
Proof.
  unfold if_doc. destruct o as [x|]; [|done]. case_bool_decide; [done|].
  by intros [= ->].
Qed.

(** What the environment looks like after [post_message], whether it
    returned or raised: the character collection is as before and the
    message collection has grown by at most the two records of the turn,
    both naming the character that was found. *)
Lemma post_message_store (w : World) (d : database) (character_id : string)
    (payload : ChatIn.t) :
  db w = Some d →
  ∃ (d' : database) (new : list dict),
    db (snd (post_message character_id payload w)) = Some d' ∧
    db_coll "character" d' = db_coll "character" d ∧
    db_coll "message" d' = db_coll "message" d ++ new ∧
    (length new ≤ 2)%nat ∧
    (new ≠ [] → is_Some (coll_find_one "_id" (VStr character_id)
                           (db_coll "character" d))) ∧
    Forall (fun m => m !! "character_id" = Some (VStr character_id)) new ∧
    ∀ out, fst (post_message character_id payload w) = inr out →
           traverse (fun m => MessageOut_of_doc (doc_to_str_id m))
             (coll_find_sorted (Some ("character_id", VStr character_id))
                "created_at" ASCENDING (db_coll "message" d')) = inr out.
Proof.
  intros Hdb. unfold post_message, bind.
  rewrite (run_db_is_None _ _ Hdb). unfold find_one.
  rewrite (run_read_coll _ _ _ _ Hdb).
  destruct (if_doc (coll_find_one "_id" (VStr character_id)
                      (db_coll "character" d))) as [char|] eqn:Hchar.
  2:{ exists d, []. simpl. rewrite app_nil_r.
      repeat split; simpl; try done; try lia; by constructor. }
  apply if_doc_Some in Hchar.
  destruct w as [dbw nw cr uu ud hs]. simpl in *. subst dbw.
  unfold insert_one, write_coll. simpl.
  set (um := message_doc (uu ud) character_id _ _ "user" (nw cr)).
  destruct (coll_insert_one um (db_coll "message" d)) as [e1|c1] eqn:Hi1; simpl.
  { exists d, []. simpl. rewrite app_nil_r.
    repeat split; simpl; try done; try lia; by constructor. }
  unfold coll_insert_one in Hi1.
  rewrite (message_doc_id _ _ _ _ _ _ : um !! "_id" = _) in Hi1.
  destruct (existsb _ _) in Hi1; [done|]. injection Hi1 as <-.
  rewrite db_coll_insert.
  set (cm := message_doc (uu (S ud)) character_id _ _ "character" (nw cr)).
  assert (Hum : um !! "character_id" = Some (VStr character_id))
    by apply message_doc_field.
  assert (Hcm : cm !! "character_id" = Some (VStr character_id))
    by apply message_doc_field.
  destruct (coll_insert_one cm (db_coll "message" d ++ [um])) as [e2|c2] eqn:Hi2;
    simpl.
  { exists (<["message" := db_coll "message" d ++ [um]]> d), [um]. simpl.
    rewrite db_coll_insert, db_coll_insert_ne by done.
    repeat split; simpl; try done; try lia; by repeat constructor. }
  unfold coll_insert_one in Hi2.
  rewrite (message_doc_id _ _ _ _ _ _ : cm !! "_id" = _) in Hi2.
  destruct (existsb _ _) in Hi2; [done|]. injection Hi2 as <-.
  unfold find_sorted, read_coll, lift. simpl.
  rewrite insert_insert_eq, db_coll_insert, <- app_assoc. simpl.
  exists (<["message" := db_coll "message" d ++ [um; cm]]> d), [um; cm]. simpl.
  rewrite db_coll_insert, db_coll_insert_ne by done.
  repeat split; simpl; try done; by repeat constructor.
Qed.

(** X14: what a successful [post_message] returns is what [get_messages]
    returns for the same character right afterwards. *)
Theorem post_then_get_messages (w w' : World) (character_id : string)
    (payload : ChatIn.t) (out : list MessageOut.t) :
  post_message character_id payload w = (inr out, w') →
  get_messages character_id w' = (inr out, w').
Proof.
  intros Hrun.
  destruct (db w) as [d|] eqn:Hdb.
  2:{ pose proof (handlers_unavailable_post _ character_id payload Hdb) as H.
      rewrite Hrun in H. done. }
  destruct (post_message_store w d character_id payload Hdb)
    as (d' & new & Hdb' & _ & _ & _ & _ & _ & Hout).
  rewrite Hrun in Hdb', Hout. simpl in *.
  unfold get_messages, bind. rewrite (run_db_is_None _ _ Hdb').
  unfold find_sorted. rewrite (run_read_coll _ _ _ _ Hdb').
  unfold lift. by rewrite (Hout out eq_refl).
Qed.

Lemma MessageOut_of_doc_character_id (m : dict) (mo : MessageOut.t) :
  MessageOut_of_doc (doc_to_str_id m) = inr mo →
  m !! "character_id" = Some (VStr (MessageOut.character_id mo)).
Proof.
  unfold MessageOut_of_doc, getitem.
  rewrite (doc_to_str_id_other _ "character_id"), (doc_to_str_id_other _ "username"),
    (doc_to_str_id_other _ "text"), (doc_to_str_id_other _ "role"),
    (doc_to_str_id_other _ "created_at") by done.
  destruct (doc_to_str_id m !! "id") as [i|]; simpl; [|done].
  destruct (m !! "character_id") as [c|]; simpl; [|done].
  destruct (m !! "username") as [u|]; simpl; [|done].
  destruct (m !! "text") as [t|]; simpl; [|done].
  destruct (m !! "role") as [r|]; simpl; [|done].
  destruct (m !! "created_at") as [ts|]; simpl; [|done].
  unfold MessageOut_new.
  destruct (as_str _ i); simpl; [done|].
  destruct c; simpl; try done.
  destruct (as_str _ u); simpl; [done|].
  destruct (as_str _ t); simpl; [done|].
  destruct (as_role _ r); simpl; [done|].
  destruct (as_datetime _ ts); simpl; [done|].
  by intros [= <-].
Qed.

(** X15: every message [get_messages] returns belongs to the character
    asked for: messages of other characters never leak into a history. *)
Theorem get_messages_only_this_character (w w' : World) (character_id : string)
    (out : list MessageOut.t) :
  get_messages character_id w = (inr out, w') →
  Forall (fun mo => MessageOut.character_id mo = character_id) out.
Proof.
  unfold get_messages, bind, db_is_None, find_sorted, read_coll, raise, lift.
  cbv beta. destruct (db w) as [d|] eqn:Hdb.
  2:{ by rewrite bool_decide_eq_true_2. }
  rewrite bool_decide_eq_false_2 by done. simpl. rewrite Hdb.
  intros [= Hout _]. apply traverse_inr in Hout.
  assert (Hdocs : Forall (fun m => m !! "character_id" = Some (VStr character_id))
            (coll_find_sorted (Some ("character_id", VStr character_id))
               "created_at" ASCENDING (db_coll "message" d))).
  { rewrite coll_find_sorted_filter. rewrite Forall_forall. intros m Hm.
    apply list_elem_of_In, filter_In in Hm as [_ Hm].
    unfold matches in Hm. by apply bool_decide_eq_true_1 in Hm. }
  induction Hout as [|m mo docs out Hm _ IH]; [constructor|].
  apply Forall_cons in Hdocs as [Hd Hdocs]. constructor; [|by apply IH].
  apply MessageOut_of_doc_character_id in Hm. congruence.
Qed.

Lemma coll_find_one_app_l (k : string) (v : pyval) (c c' : collection) :
  is_Some (coll_find_one k v c) → is_Some (coll_find_one k v (c ++ c')).
Proof.
  unfold coll_find_one. induction c as [|x c IH]; simpl; [by intros [? ?]|].
  destruct (matches k v x); [eauto|done].
Qed.

(** X16: [post_message] keeps referential integrity whether it returns
    or raises: if every stored message names a stored character before,
    so it does afterwards. *)
Theorem post_message_keeps_references (w : World) (d : database)
    (character_id : string) (payload : ChatIn.t) :
  db w = Some d →
  messages_refer d →
  ∃ d', db (snd (post_message character_id payload w)) = Some d' ∧
        messages_refer d'.
Proof.
  intros Hdb Href.
  destruct (post_message_store w d character_id payload Hdb)
    as (d' & new & Hdb' & Hchars & Hmsgs & _ & Hfound & Hnew & _).
  exists d'. split; [done|].
  unfold messages_refer in *. rewrite Hmsgs, Hchars.
  apply Forall_app. split; [done|].
  destruct new as [|m new]; [constructor|].
  specialize (Hfound ltac:(done)).
  eapply Forall_impl; [exact Hnew|]. intros x Hx. by exists character_id.
Qed.

(** X17: [create_character] keeps referential integrity whether it
    returns or raises: stored characters are never removed or re-keyed,
    so no stored message loses its character. *)
Theorem create_character_keeps_references (w : World) (d : database)
    (c : Character.t) :
  db w = Some d →
  messages_refer d →
  ∃ d', db (snd (create_character c w)) = Some d' ∧ messages_refer d'.
Proof.
  intros Hdb Href. unfold create_character, bind.
  rewrite (run_db_is_None _ _ Hdb).
  destruct w as [dbw nw cr uu ud hs]. simpl in *. subst dbw.
  unfold insert_one, write_coll. simpl.
  fold (character_record c (uu ud) (nw cr)).
  destruct (coll_insert_one _ (db_coll "character" d)) as [e|c'] eqn:Hi; simpl.
  { by exists d. }
  unfold coll_insert_one in Hi.
  destruct (character_record_fields c (uu ud) (nw cr)) as (Hid & _).
  rewrite Hid in Hi. destruct (existsb _ _) in Hi; [done|]. injection Hi as <-.
  eexists. split; [reflexivity|]. unfold messages_refer in *.
  rewrite db_coll_insert, db_coll_insert_ne by done.
  eapply Forall_impl; [exact Href|]. intros m (cid & Hm & Hfound).
  exists cid. split; [done|]. by apply coll_find_one_app_l.
Qed.

(** X18: a character just created can be chatted with: posting to the
    identifier [create_character] returned appends the two records of a
    turn, and the reply is attributed to the name the character was
    created with. *)
Theorem create_then_post_message (w : World) (d : database) (c : Character.t)
    (payload : ChatIn.t) :
  db w = Some d →
  fresh_id (uuid_at w (uuid_draws w)) (db_coll "character" d) →
  fresh_id (uuid_at w (S (uuid_draws w))) (db_coll "message" d) →
  fresh_id (uuid_at w (S (S (uuid_draws w)))) (db_coll "message" d) →
  uuid_at w (S (uuid_draws w)) ≠ uuid_at w (S (S (uuid_draws w))) →
  ∃ (o : CharacterOut.t) (w1 w2 : World) (r : result (list MessageOut.t))
    (d2 : database) (user_msg char_msg : dict),
    create_character c w = (inr o, w1) ∧
    post_message (CharacterOut.id o) payload w1 = (r, w2) ∧
    db w2 = Some d2 ∧
    db_coll "message" d2 = db_coll "message" d ++ [user_msg; char_msg] ∧
    user_msg !! "character_id" = Some (VStr (CharacterOut.id o)) ∧
    user_msg !! "text" = Some (VStr (ChatIn.text payload)) ∧
    char_msg !! "character_id" = Some (VStr (CharacterOut.id o)) ∧
    char_msg !! "username" = Some (VStr (Character.name c)) ∧
    char_msg !! "role" = Some (VStr "character").
Proof.
  intros Hdb Hfc Hf1 Hf2 Hne.
  pose proof (create_character_run w d c Hdb Hfc) as Hrun1. cbv zeta in Hrun1.
  set (id := uuid_at w (uuid_draws w)) in *.
  set (rec := character_record c id (now_at w (clock_reads w))) in *.
  set (w1 := mkWorld (Some (<["character" := db_coll "character" d ++ [rec]]> d))
               (now_at w) (S (clock_reads w)) (uuid_at w) (S (uuid_draws w))
               (hash_salt w)) in *.
  destruct (character_record_fields c id (now_at w (clock_reads w)))
    as (Hid & _ & _ & Hview).
  apply character_view_fields in Hview as (_ & Hname & _). simpl in Hname.
  assert (Hfind : coll_find_one "_id" (VStr id)
                    (db_coll "character"
                       (<["character" := db_coll "character" d ++ [rec]]> d))
                  = Some rec).
  { rewrite db_coll_insert. by apply coll_find_one_at. }
  pose proof (post_message_run w1 _ id payload rec eq_refl Hfind) as Hrun2.
  cbv zeta in Hrun2. simpl in Hrun2.
  rewrite db_coll_insert_ne in Hrun2 by done.
  specialize (Hrun2 Hf1 Hf2 Hne).
  do 7 eexists. split; [exact Hrun1|]. simpl.
  split; [exact Hrun2|]. simpl.
  split; [reflexivity|]. split; [apply db_coll_insert|].
  match goal with
  | |- context [message_doc ?i ?c ?u ?t "user" ?n] =>
      destruct (message_doc_field i c u t "user" n) as (Hc1 & _ & Ht1 & _)
  end.
  match goal with
  | |- context [message_doc ?i ?c ?u ?t "character" ?n] =>
      destruct (message_doc_field i c u t "character" n)
        as (Hc2 & Hu2 & _ & Hr2 & _)
  end.
  rewrite Hc1, Ht1, Hc2, Hu2, Hr2. unfold dict_get_or, rec. rewrite Hname.
  done.
Qed.

(** ** Further facts on normalization, replies and listings *)

(** X19: normalizing twice is normalizing once. *)
Theorem doc_to_str_id_idempotent (m : dict) :
  doc_to_str_id (doc_to_str_id m) = doc_to_str_id m.
Proof.
  unfold doc_to_str_id at 1. by rewrite doc_to_str_id_no_private.
Qed.

Lemma string_length_app (s1 s2 : string) :
  String.length (s1 +:+ s2) = (String.length s1 + String.length s2)%nat.
Proof. induction s1 as [|a s1 IH]; simpl; [done|]. by rewrite IH. Qed.

Lemma str_prefix_length (n : nat) (s : string) :
  String.length (str_prefix n s) = Nat.min n (String.length s).
Proof.
  revert s. induction n as [|n IH]; intros [|a s]; simpl; try done.
  by rewrite IH.
Qed.

(** X20: the reply is as long as the name, the personality, the first
    400 characters of the input and 152 characters of template together;
    for a character within the schema's bounds (name up to 50, personality
    up to 500 characters) it stays within the 2000 characters the Message
    schema allows for a text, however long the input is. *)
Theorem generate_character_reply_length (c : dict) (t n p : string) :
  c !! "name" = Some (VStr n) →
  c !! "personality" = Some (VStr p) →
  (String.length n ≤ 50)%nat →
  (String.length p ≤ 500)%nat →
  String.length (generate_character_reply c t)
  = (String.length n + String.length p + Nat.min 400 (String.length t) + 152)%nat ∧
  (String.length (generate_character_reply c t) ≤ 2000)%nat.
Proof.
  intros Hn Hp Hln Hlp.
  assert (Hlen : String.length (generate_character_reply c t)
                 = (String.length n + String.length p
                    + Nat.min 400 (String.length t) + 152)%nat).
  { assert (Hreply : generate_character_reply c t
                     = n +:+ ": As a " +:+ p +:+ " character, I hear you say: '"
                         +:+ str_prefix 400 t
                         +:+ "'. Here's my friendly response: I'm excited to chat and co-create images. Share more about style, mood, and setting!").
    { unfold generate_character_reply, dict_get_or. by rewrite Hn, Hp. }
    rewrite Hreply, !string_length_app, str_prefix_length.
    generalize (Nat.min 400 (String.length t)). intros m. simpl. lia. }
  split; [done|]. rewrite Hlen. lia.
Qed.

Lemma CharacterOut_of_doc_nameless (c : dict) :
  c !! "name" = None → ∃ e, CharacterOut_of_doc (doc_to_str_id c) = inl e.
Proof.
  intros Hn. unfold CharacterOut_of_doc, getitem.
  rewrite (doc_to_str_id_other _ "name") by done. rewrite Hn.
  destruct (doc_to_str_id c !! "id"); simpl; eauto.
Qed.

(** X21: one stored character without a name makes the whole listing
    raise; the other characters are not returned either. *)
Theorem list_characters_nameless (w : World) (d : database) (c : dict) :
  db w = Some d →
  c ∈ db_coll "character" d →
  c !! "name" = None →
  ∃ e, list_characters w = (inl e, w).
Proof.
  intros Hdb Hin Hn. unfold list_characters, bind.
  rewrite (run_db_is_None _ _ Hdb). unfold find_sorted.
  rewrite (run_read_coll _ _ _ _ Hdb). unfold lift.
  destruct (traverse _ _) as [e|out] eqn:Ht; [by exists e|].
  apply traverse_inr in Ht.
  assert (Hc : c ∈ coll_find_sorted None "created_at" DESCENDING
                     (db_coll "character" d))
    by by rewrite coll_find_sorted_all.
  apply list_elem_of_lookup in Hc as [i Hi].
  destruct (Forall2_lookup_l _ _ _ _ _ Ht Hi) as (y & _ & Hy).
  destruct (CharacterOut_of_doc_nameless c Hn) as [e He]. congruence.
Qed.

(** ** Refused inserts *)

Lemma coll_insert_one_taken (id : string) (doc x : dict) (c : collection) :
  doc !! "_id" = Some (VStr id) → x ∈ c → x !! "_id" = Some (VStr id) →
  coll_insert_one doc c = inl DuplicateKeyError.
Proof.
  intros Hid Hin Hx. unfold coll_insert_one. rewrite Hid.
  replace (existsb (matches "_id" (VStr id)) c) with true; [done|].
  symmetry. apply existsb_exists. exists x. split; [by apply list_elem_of_In|].
  unfold matches. by apply bool_decide_eq_true_2.
Qed.

(** X22: the two writes of a chat turn are not atomic: when the
    identifier drawn for the reply is refused by the store (here: it
    repeats the one just used for the user's message), [post_message]
    raises with the user's message already stored and no reply to it. *)
Theorem post_message_orphan (w : World) (d : database) (character_id : string)
    (payload : ChatIn.t) (char : dict) :
  db w = Some d →
  coll_find_one "_id" (VStr character_id) (db_coll "character" d) = Some char →
  fresh_id (uuid_at w (uuid_draws w)) (db_coll "message" d) →
  uuid_at w (S (uuid_draws w)) = uuid_at w (uuid_draws w) →
  ∃ (w' : World) (d' : database) (user_msg : dict),
    post_message character_id payload w = (inl DuplicateKeyError, w') ∧
    db w' = Some d' ∧
    db_coll "message" d' = db_coll "message" d ++ [user_msg] ∧
    user_msg !! "role" = Some (VStr "user") ∧
    user_msg !! "text" = Some (VStr (ChatIn.text payload)).
Proof.
  intros Hdb Hc Hf Hsame. unfold post_message, bind.
  rewrite (run_db_is_None _ _ Hdb). unfold find_one.
  rewrite (run_read_coll _ _ _ _ Hdb), Hc, (if_doc_found _ _ _ _ Hc).
  destruct w as [dbw nw cr uu ud hs]. simpl in *. subst dbw.
  unfold insert_one, write_coll. simpl.
  set (um := message_doc (uu ud) character_id (VStr (ChatIn.username payload))
               (VStr (ChatIn.text payload)) "user" (nw cr)).
  rewrite (coll_insert_one_fresh (uu ud)) by (done || apply message_doc_id).
  simpl. rewrite db_coll_insert.
  rewrite (coll_insert_one_taken (uu ud) _ um);
    [|rewrite Hsame; apply message_doc_id
     |apply elem_of_app; right; by apply list_elem_of_singleton
     |apply message_doc_id].
  simpl. eexists _, _, um. split; [reflexivity|]. simpl.
  split; [reflexivity|]. split; [apply db_coll_insert|].
  destruct (message_doc_field (uu ud) character_id (VStr (ChatIn.username payload))
              (VStr (ChatIn.text payload)) "user" (nw cr))
    as (_ & _ & Ht & Hr & _).
  done.
Qed.

(** X23: a creation never overwrites: when the identifier drawn is the
    key of a stored character, [create_character] raises and the store is
    as it was. *)
Theorem create_character_taken (w : World) (d : database) (c : Character.t)
    (x : dict) :
  db w = Some d →
  x ∈ db_coll "character" d →
  x !! "_id" = Some (VStr (uuid_at w (uuid_draws w))) →
  ∃ w', create_character c w = (inl DuplicateKeyError, w') ∧ db w' = db w.
Proof.
  intros Hdb Hin Hx. unfold create_character, bind.
  rewrite (run_db_is_None _ _ Hdb).
  destruct w as [dbw nw cr uu ud hs]. simpl in *. subst dbw.
  unfold insert_one, write_coll. simpl.
  fold (character_record c (uu ud) (nw cr)).
  destruct (character_record_fields c (uu ud) (nw cr)) as (Hid & _).
  rewrite (coll_insert_one_taken (uu ud) _ x) by done.
  by eexists.
Qed.

End Backend.

(** * The statements at the sample environment *)

Lemma sample_users_wf : users_wf (db_coll "userprofile" sample_db).
Proof.
  split.
  - repeat constructor. by exists "bob".
  - by vm_compute; repeat constructor; set_solver.
Qed.

Lemma sample_messages_viewed (cid : string) :
  Forall (fun m => is_Some (message_view m))
    (List.filter (matches "character_id" (VStr cid)) (db_coll "message" sample_db)).
Proof.
  assert (H : Forall (fun m => is_Some (message_view m)) (db_coll "message" sample_db)).
  { repeat constructor. eexists. vm_refl. }
  rewrite Forall_forall in H |- *. intros m Hm. apply H.
  apply list_elem_of_In, filter_In in Hm as [Hm _]. by apply list_elem_of_In.
Qed.

Lemma sample_characters_viewed :
  Forall (fun x => is_Some (character_view x)) (db_coll "character" sample_db).
Proof. repeat constructor. eexists. vm_refl. Qed.

Lemma sample_fresh (n : nat) (name : string) :
  name = "character" ∨ name = "message" →
  fresh_id (uuid_at sample_world n) (db_coll name sample_db).
Proof.
  intros [-> | ->]; repeat constructor; vm_compute; intros [= H];
    by destruct (pretty_N_go (N.of_nat n) "").
Qed.

(** C6 at a one-object store holding the sample message. *)
Lemma doc_to_str_id_copy_witness :
  ∃ (d : nat) (h' : gmap nat dict) (m' : dict),
    doc_to_str_id_obj sample_datetime_str 0%nat {[ 0%nat := sample_message ]}
    = Some (d, h') ∧
    h' !! 0%nat = Some sample_message ∧
    h' !! d = Some m' ∧
    m' !! "_id" = None ∧
    m' !! "id" = Some (VStr "m-1") ∧
    m' !! "text" = Some (VStr "hi").
Proof.
  destruct (doc_to_str_id_copy sample_datetime_str {[ 0%nat := sample_message ]}
              0%nat sample_message)
    as (d & h' & m' & Hrun & _ & _ & Hold & Hnew & _ & Hpriv & Hpub & _).
  { vm_refl. }
  exists d, h', m'.
  destruct (Hpub (VStr "m-1")) as [Hid Hrest]; [vm_refl|].
  repeat split; try assumption.
  rewrite Hrest by discriminate. vm_refl.
Defined.

(** C10 at two texts of 401 and 402 characters that share the first 400. *)
Lemma generate_character_reply_prefix_witness :
  generate_character_reply sample_datetime_str sample_character
    (sample_long_text +:+ "x")
  = generate_character_reply sample_datetime_str sample_character
      (sample_long_text +:+ "yz").
Proof.
  apply (generate_character_reply_prefix sample_datetime_str);
    vm_refl.
Defined.

(** C1 at the sample store, whose user has the highest trust score. *)
Lemma generate_image_nsfw_blocked_witness :
  ∃ w',
    generate_image sample_datetime_str sample_str_hash sample_nsfw_request
      sample_world
    = (inr (ImageGenResponse.mk (uuid_at sample_world (uuid_draws sample_world))
              "blocked" (blocked_message) None), w')
    ∧ db w' = db sample_world.
Proof.
  apply (generate_image_nsfw_blocked sample_datetime_str sample_str_hash
           sample_world sample_db sample_nsfw_request sample_character sample_user);
    vm_refl.
Defined.



(** C3 at an identifier no sample character carries. *)
Lemma post_message_unknown_character_witness :
  post_message sample_datetime_str "nobody" (ChatIn.mk "bob" "hello") sample_world
  = (inl (HTTPException 404 "Character not found"), sample_world).
Proof.
  apply (post_message_unknown_character sample_datetime_str sample_world sample_db).
  - reflexivity.
  - repeat constructor. vm_compute. discriminate.
Defined.

(** C2 at the sample character, with a text longer than 400 characters. *)
Lemma post_message_appends_two_witness :
  ∃ (r : result (list MessageOut.t)) (w' : World) (d' : database)
    (user_msg char_msg : dict),
    post_message sample_datetime_str "c-1"
      (ChatIn.mk "bob" (sample_long_text +:+ "tail")) sample_world = (r, w') ∧
    db w' = Some d' ∧
    db_coll "message" d' = [sample_message; user_msg; char_msg] ∧
    user_msg !! "role" = Some (VStr "user") ∧
    char_msg !! "role" = Some (VStr "character") ∧
    char_msg !! "username" = Some (VStr "Aria") ∧
    char_msg !! "text"
    = Some (VStr ("Aria: As a kind and brave character, I hear you say: '"
                  +:+ sample_long_text
                  +:+ "'. Here's my friendly response: I'm excited to chat and co-create images. Share more about style, mood, and setting!")).
Proof.
  destruct (post_message_appends_two sample_datetime_str sample_world sample_db
              "c-1" (ChatIn.mk "bob" (sample_long_text +:+ "tail"))
              sample_character "Aria")
    as (r & w' & d' & um & cm & reply & Hrun & Hdb & Hmsgs & _ & Hr1 & _ & _ & _
        & _ & Hr2 & _ & Hu2 & Ht2 & _ & _ & Hreply).
  - reflexivity.
  - vm_refl.
  - vm_refl.
  - apply sample_fresh. by right.
  - apply sample_fresh. by right.
  - vm_compute. discriminate.
  - exists r, w', d', um, cm. repeat split; try assumption.
    rewrite Ht2, Hreply. vm_refl.
Defined.

(** C8 at the sample character, which already has one message. *)
Lemma post_message_full_history_witness :
  ∃ (out : list MessageOut.t) (w' : World),
    post_message sample_datetime_str "c-1" (ChatIn.mk "bob" "hello") sample_world
    = (inr out, w') ∧
    length out = 3%nat ∧
    StronglySorted
      (fun a b => MessageOut.created_at a ≤ MessageOut.created_at b) out.
Proof.
  destruct (post_message_full_history sample_datetime_str sample_world sample_db
              "c-1" (ChatIn.mk "bob" "hello") sample_character "Aria")
    as (docs & out & w' & um & cm & Hrun & _ & _ & _ & Hsorted & Hlen).
  - reflexivity.
  - vm_refl.
  - vm_refl.
  - apply sample_fresh. by right.
  - apply sample_fresh. by right.
  - vm_compute. discriminate.
  - apply sample_messages_viewed.
  - exists out, w'. repeat split; assumption.
Defined.

(** C9 at the sample character and at an identifier without character. *)
Lemma get_messages_history_witness :
  (∃ out, get_messages sample_datetime_str "c-1" sample_world = (inr out, sample_world)
          ∧ length out = 1%nat) ∧
  get_messages sample_datetime_str "nobody" sample_world = (inr [], sample_world).
Proof.
  split.
  - destruct (get_messages_history sample_datetime_str sample_world sample_db "c-1"
                eq_refl (sample_messages_viewed "c-1"))
      as (docs & out & Hrun & Hperm & Hv & _ & _).
    exists out. split; [assumption|].
    apply (f_equal length) in Hv. rewrite !length_fmap in Hv.
    rewrite <- Hv, Hperm. reflexivity.
  - destruct (get_messages_history sample_datetime_str sample_world sample_db "nobody"
                eq_refl (sample_messages_viewed "nobody"))
      as (docs & out & Hrun & _ & _ & _ & Hnil).
    rewrite Hrun, Hnil; reflexivity.
Defined.

(** C7 at the sample store: the same character created twice. *)
Lemma create_character_twice_witness :
  ∃ (o1 o2 : CharacterOut.t) (w1 w2 : World) (out : list CharacterOut.t),
    create_character sample_datetime_str sample_new_character sample_world
    = (inr o1, w1) ∧
    create_character sample_datetime_str sample_new_character w1 = (inr o2, w2) ∧
    CharacterOut.id o1 ≠ CharacterOut.id o2 ∧
    list_characters sample_datetime_str w2 = (inr out, w2) ∧
    length out = 3%nat ∧
    StronglySorted
      (fun a b => CharacterOut.created_at b ≤ CharacterOut.created_at a) out.
Proof.
  destruct (create_character_twice sample_datetime_str sample_world sample_db
              sample_new_character eq_refl sample_characters_viewed)
    as [Hreturn Hpair].
  destruct Hreturn as (o1 & o2 & w1 & w2 & H1 & H2).
  - apply sample_fresh. by left.
  - apply sample_fresh. by left.
  - vm_compute. discriminate.
  - destruct (Hpair o1 o2 w1 w2 H1 H2)
      as (Hne & d2 & r1 & r2 & docs & out & _ & _ & _ & _ & _ & _ & _ & _ & _
          & Hlist & Hperm & Hv & Hsorted).
    exists o1, o2, w1, w2, out. repeat split; try assumption.
    apply (f_equal length) in Hv. rewrite !length_fmap in Hv.
    rewrite <- Hv, Hperm. reflexivity.
Defined.

(** C4 at the sample store: the stored user upserted twice. *)
Lemma upsert_user_twice_witness :
  ∃ (w1 w2 : World) (d2 : database) (doc : dict),
    upsert_user (UserProfile.mk "bob" (Some 31) 10) sample_world
    = (inr (UserProfile.mk "bob" (Some 31) 10), w1) ∧
    upsert_user (UserProfile.mk "bob" None 50) w1
    = (inr (UserProfile.mk "bob" None 50), w2) ∧
    db w2 = Some d2 ∧
    List.filter (matches "username" (VStr "bob")) (db_coll "userprofile" d2) = [doc] ∧
    doc !! "age" = Some VNone ∧
    doc !! "trust_score" = Some (VInt 50).
Proof.
  apply (upsert_user_twice sample_world sample_db
           (UserProfile.mk "bob" (Some 31) 10) (UserProfile.mk "bob" None 50)).
  - reflexivity.
  - apply sample_users_wf.
  - vm_compute. repeat split; (lia || discriminate).
  - vm_compute. repeat split; (lia || discriminate).
  - reflexivity.
Defined.


(** * Further statements at the sample environment *)

Lemma sample_new_user_valid : UserProfile_valid sample_new_user.
Proof. vm_compute. repeat split; (lia || discriminate). Qed.

Lemma sample_known_user_valid : UserProfile_valid sample_known_user.
Proof. vm_compute. repeat split; (lia || discriminate). Qed.

Lemma sample_no_alice :
  Forall (fun x => x !! "username" ≠ Some (VStr "alice"))
    (db_coll "userprofile" sample_db).
Proof. repeat constructor. vm_compute. discriminate. Qed.

Lemma sample_messages_refer : messages_refer sample_db.
Proof.
  repeat constructor. exists "c-1". split; [vm_refl|].
  eexists. vm_refl.
Qed.

(** X1 at the sample environment without a store. *)
Lemma handlers_store_unavailable_witness :
  upsert_user sample_new_user sample_offline_world
  = (inl (HTTPException 500 "Database not available"), sample_offline_world) ∧
  post_message sample_datetime_str "c-1" (ChatIn.mk "bob" "hi") sample_offline_world
  = (inl (HTTPException 500 "Database not available"), sample_offline_world).
Proof.
  destruct (handlers_store_unavailable sample_datetime_str sample_str_hash
              sample_offline_world sample_new_user "bob" sample_new_character "c-1"
              (ChatIn.mk "bob" "hi") sample_sfw_request eq_refl)
    as (H1 & _ & _ & _ & H5 & _).
  by split.
Defined.

(** X4 at the sample SFW request. *)
Lemma generate_image_outcomes_witness :
  ∃ (r : ImageGenResponse.t) (w' : World),
    generate_image sample_datetime_str sample_str_hash sample_sfw_request
      sample_world = (inr r, w') ∧
    ImageGenResponse.status r = "completed" ∧
    uuid_draws w' = 1%nat.
Proof.
  eassert (H : generate_image sample_datetime_str sample_str_hash
                 sample_sfw_request sample_world = (inr _, _))
    by vm_refl.
  destruct (generate_image_outcomes _ _ _ _ _ _ H)
    as (_ & Hd & [(Hr & _)|(_ & Hs & _)]); [discriminate Hr|].
  eexists _, _. split; [exact H|]. split; [exact Hs|exact Hd].
Defined.

(** X5 at an identifier no sample character carries. *)
Lemma generate_image_unknown_character_witness :
  generate_image sample_datetime_str sample_str_hash
    (ImageRequest.mk "nobody" "bob" "a castle" None NSFW) sample_world
  = (inl (HTTPException 404 "Character not found"), sample_world).
Proof.
  apply (generate_image_unknown_character sample_datetime_str sample_str_hash
           sample_world sample_db).
  - reflexivity.
  - repeat constructor. vm_compute. discriminate.
Defined.

(** X6 at an NSFW request of a user that is not stored. *)
Lemma generate_image_unknown_user_witness :
  generate_image sample_datetime_str sample_str_hash
    (ImageRequest.mk "c-1" "alice" "a castle" None NSFW) sample_world
  = (inl (HTTPException 404 "User not found"), sample_world).
Proof.
  apply (generate_image_unknown_user sample_datetime_str sample_str_hash
           sample_world sample_db _ sample_character).
  - reflexivity.
  - vm_refl.
  - apply sample_no_alice.
Defined.

(** X7 at a username that is not stored. *)
Lemma get_user_unknown_witness :
  get_user "alice" sample_world
  = (inl (HTTPException 404 "User not found"), sample_world).
Proof.
  apply (get_user_unknown sample_world sample_db "alice");
    [reflexivity|apply sample_no_alice].
Defined.

(** X8 at a new user. *)
Lemma upsert_then_get_user_witness :
  ∃ w', upsert_user sample_new_user sample_world = (inr sample_new_user, w') ∧
        get_user "alice" w' = (inr sample_new_user, w').
Proof.
  apply (upsert_then_get_user sample_world sample_db sample_new_user);
    [reflexivity|apply sample_users_wf|apply sample_new_user_valid].
Defined.

(** X9 at a new user. *)
Lemma upsert_user_inserts_witness :
  ∃ (w' : World) (doc : dict),
    upsert_user sample_new_user sample_world = (inr sample_new_user, w') ∧
    db w' = Some (<["userprofile" := [sample_user; doc]]> sample_db) ∧
    doc !! "_id" = Some (VStr "alice") ∧
    doc !! "updated_at" = Some (VTime 100) ∧
    doc !! "created_at" = Some (VTime 101).
Proof.
  destruct (upsert_user_inserts sample_world sample_db sample_new_user)
    as (w' & doc & Hrun & Hdb & _ & Hid & _ & _ & _ & Hup & Hcr).
  - reflexivity.
  - apply sample_new_user_valid.
  - apply sample_no_alice.
  - repeat constructor. vm_compute. discriminate.
  - exists w', doc. repeat split; assumption.
Defined.

(** X10 at the stored user. *)
Lemma upsert_user_updates_witness :
  ∃ (w' : World) (e' : dict),
    upsert_user sample_known_user sample_world = (inr sample_known_user, w') ∧
    db w' = Some (<["userprofile" := [e']]> sample_db) ∧
    e' !! "created_at" = Some (VTime 80) ∧
    e' !! "updated_at" = Some (VTime 100) ∧
    e' !! "trust_score" = Some (VInt 10).
Proof.
  destruct (upsert_user_updates sample_world sample_db sample_known_user sample_user)
    as (w' & l1 & l2 & e' & Hsplit & Hrun & Hdb & _ & _ & Hcr & Hup & _ & Hts & _).
  - reflexivity.
  - apply sample_users_wf.
  - apply sample_known_user_valid.
  - vm_refl.
  - assert (Hl : l1 = [] ∧ l2 = []).
    { change (db_coll "userprofile" sample_db) with [sample_user] in Hsplit.
      destruct l1 as [|x l1].
      - injection Hsplit as <-. done.
      - injection Hsplit as _ Hnil. by destruct l1. }
    destruct Hl as [-> ->]. exists w', e'. repeat split; assumption.
Defined.

(** X11 at the stored user. *)
Lemma upsert_user_keeps_wf_witness :
  ∃ d', db (snd (upsert_user sample_known_user sample_world)) = Some d' ∧
        users_wf (db_coll "userprofile" d').
Proof.
  apply (upsert_user_keeps_wf sample_world sample_db sample_known_user);
    [reflexivity|apply sample_users_wf|apply sample_known_user_valid].
Defined.

(** X12 at the sample character. *)
Lemma post_message_keeps_views_witness :
  ∃ d', db (snd (post_message sample_datetime_str "c-1" (ChatIn.mk "bob" "hello")
                   sample_world)) = Some d' ∧
        Forall (fun m => is_Some (message_view m)) (db_coll "message" d').
Proof.
  apply (post_message_keeps_views sample_datetime_str sample_world sample_db "c-1"
           (ChatIn.mk "bob" "hello") sample_character "Aria").
  - reflexivity.
  - vm_refl.
  - vm_refl.
  - apply sample_fresh. by right.
  - apply sample_fresh. by right.
  - vm_compute. discriminate.
  - repeat constructor. eexists. vm_refl.
Defined.

(** X13 at the sample store. *)
Lemma create_character_keeps_views_witness :
  ∃ d', db (snd (create_character sample_datetime_str sample_new_character
                   sample_world)) = Some d' ∧
        Forall (fun x => is_Some (character_view x)) (db_coll "character" d').
Proof.
  apply (create_character_keeps_views sample_datetime_str sample_world sample_db).
  - reflexivity.
  - apply sample_fresh. by left.
  - apply sample_characters_viewed.
Defined.

(** X14 at the sample character. *)
Lemma post_then_get_messages_witness :
  ∃ (out : list MessageOut.t) (w' : World),
    post_message sample_datetime_str "c-1" (ChatIn.mk "bob" "hello") sample_world
    = (inr out, w') ∧
    get_messages sample_datetime_str "c-1" w' = (inr out, w').
Proof.
  eassert (H : post_message sample_datetime_str "c-1" (ChatIn.mk "bob" "hello")
                 sample_world = (inr _, _))
    by vm_refl.
  eexists _, _. split; [exact H|].
  exact (post_then_get_messages _ _ _ _ _ _ H).
Defined.

(** X15 at the sample character. *)
Lemma get_messages_only_this_character_witness :
  ∃ (out : list MessageOut.t),
    get_messages sample_datetime_str "c-1" sample_world = (inr out, sample_world) ∧
    Forall (fun mo => MessageOut.character_id mo = "c-1") out.
Proof.
  eassert (H : get_messages sample_datetime_str "c-1" sample_world
               = (inr _, sample_world))
    by vm_refl.
  eexists. split; [exact H|].
  exact (get_messages_only_this_character _ _ _ _ _ H).
Defined.

(** X16 at the sample character. *)
Lemma post_message_keeps_references_witness :
  ∃ d', db (snd (post_message sample_datetime_str "c-1" (ChatIn.mk "bob" "hello")
                   sample_world)) = Some d' ∧
        messages_refer d'.
Proof.
  apply (post_message_keeps_references sample_datetime_str sample_world sample_db);
    [reflexivity|apply sample_messages_refer].
Defined.

(** X17 at the sample store. *)
Lemma create_character_keeps_references_witness :
  ∃ d', db (snd (create_character sample_datetime_str sample_new_character
                   sample_world)) = Some d' ∧
        messages_refer d'.
Proof.
  apply (create_character_keeps_references sample_datetime_str sample_world
           sample_db);
    [reflexivity|apply sample_messages_refer].
Defined.

(** X18 at the sample store. *)
Lemma create_then_post_message_witness :
  ∃ (o : CharacterOut.t) (w1 w2 : World) (r : result (list MessageOut.t))
    (d2 : database) (user_msg char_msg : dict),
    create_character sample_datetime_str sample_new_character sample_world
    = (inr o, w1) ∧
    post_message sample_datetime_str (CharacterOut.id o) (ChatIn.mk "bob" "hello") w1
    = (r, w2) ∧
    db w2 = Some d2 ∧
    db_coll "message" d2 = [sample_message; user_msg; char_msg] ∧
    char_msg !! "username" = Some (VStr "Brin").
Proof.
  destruct (create_then_post_message sample_datetime_str sample_world sample_db
              sample_new_character (ChatIn.mk "bob" "hello"))
    as (o & w1 & w2 & r & d2 & um & cm & H1 & H2 & Hdb & Hmsgs & _ & _ & _ & Hu & _).
  - reflexivity.
  - apply sample_fresh. by left.
  - apply (sample_fresh 1). by right.
  - apply (sample_fresh 2). by right.
  - vm_compute. discriminate.
  - exists o, w1, w2, r, d2, um, cm. repeat split; assumption.
Defined.

(** X20 at the sample character and a text of 404 characters. *)
Lemma generate_character_reply_length_witness :
  String.length (generate_character_reply sample_datetime_str sample_character
                   (sample_long_text +:+ "tail")) = 570%nat.
Proof.
  destruct (generate_character_reply_length sample_datetime_str sample_character
              (sample_long_text +:+ "tail") "Aria" "kind and brave")
    as [Hlen _].
  - vm_refl.
  - vm_refl.
  - vm_compute. lia.
  - vm_compute. lia.
  - rewrite Hlen. vm_refl.
Defined.

(** X21 at a store holding a character record without name. *)
Lemma list_characters_nameless_witness :
  ∃ e, list_characters sample_datetime_str sample_broken_world
       = (inl e, sample_broken_world).
Proof.
  apply (list_characters_nameless sample_datetime_str sample_broken_world
           (<["character" := [sample_character; sample_nameless_character]]> ∅)
           sample_nameless_character).
  - reflexivity.
  - rewrite db_coll_insert. set_solver.
  - vm_refl.
Defined.

(** X22 at an identifier source that repeats itself. *)
Lemma post_message_orphan_witness :
  ∃ (w' : World) (d' : database) (user_msg : dict),
    post_message sample_datetime_str "c-1" (ChatIn.mk "bob" "hello")
      sample_stuck_world = (inl DuplicateKeyError, w') ∧
    db w' = Some d' ∧
    db_coll "message" d' = [sample_message; user_msg] ∧
    user_msg !! "text" = Some (VStr "hello").
Proof.
  destruct (post_message_orphan sample_datetime_str sample_stuck_world sample_db
              "c-1" (ChatIn.mk "bob" "hello") sample_character)
    as (w' & d' & um & Hrun & Hdb & Hmsgs & _ & Ht).
  - reflexivity.
  - vm_refl.
  - repeat constructor. vm_compute. discriminate.
  - reflexivity.
  - exists w', d', um. repeat split; assumption.
Defined.

(** X23 at an identifier source that returns the key of the sample
    character. *)
Lemma create_character_taken_witness :
  ∃ w', create_character sample_datetime_str sample_new_character sample_stuck_world
        = (inl DuplicateKeyError, w') ∧
        db w' = db sample_stuck_world.
Proof.
  apply (create_character_taken sample_datetime_str sample_stuck_world sample_db
           sample_new_character sample_character).
  - reflexivity.
  - change (db_coll "character" sample_db) with [sample_character]. set_solver.
  - vm_refl.
Defined.
